(** * Property registration chaincode: a shallow embedding

    The development follows the layout of the chaincode:

    - [Js]: the JavaScript values and operators the contracts use
      ([+], [-], [>=], truthiness, [Array.prototype.join]), plain objects as
      insertion-ordered field lists, [JSON.stringify]/[JSON.parse];
    - [Ledger]: the stub of the ledger ([getState], [putState],
      [createCompositeKey]) as a small invocation monad that records every
      read and write in a trace;
    - [User], [Property]: the two model classes (lib/models);
    - [PropertyList], [UserList]: the two list classes (lib/lists);
    - [UserContract], [RegistrarContract]: the transactions.

    Numbers are the integers among the doubles: the balances and prices
    of the network are integral.  Sums and differences are rounded as
    double arithmetic rounds them (exact below 2^53, to 53 significant bits
    above), and [NaN] is kept, because [undefined + n] produces it.
    Fractions and the infinities (reached from 2^1024 on) are not carried;
    the statements on sums bound their numbers to the safe integers. *)

From Stdlib Require Import ZArith String Ascii List DecimalString Lia.
From stdpp Require Import base option gmap strings list fin_maps.

Local Open Scope string_scope.
Local Open Scope Z_scope.

(* ===================================================================== *)
(** ** JavaScript values *)
(* ===================================================================== *)
Module Js.

(** A value a field or a variable of the contracts can hold.  [JBuiltin t]
    is a function or object inherited from [Object.prototype]; [t] is the
    string [ToPrimitive] gives for it. *)
Inductive jsval : Type :=
  | JUndefined
  | JNull
  | JNaN
  | JNum (n : Z)
  | JStr (s : string)
  | JBuiltin (text : string).

#[global] Instance jsval_eq_dec : EqDecision jsval.
Proof. solve_decision. Defined.

(** What a JavaScript function throws. *)
Inductive error : Type :=
  | SyntaxError            (* JSON.parse on something that is no JSON text *)
  | TypeError              (* property access on undefined *)
  | Error (msg : string).  (* throw new Error(msg) *)

#[global] Instance error_eq_dec : EqDecision error.
Proof. solve_decision. Defined.

(** The safe integers, [Number.isSafeInteger]: every integer among them
    is a double, and a sum or difference that stays among them is exact. *)
Definition safe (z : Z) : Prop := - (2 ^ 53) < z < 2 ^ 53.

(** The double nearest to an integer (round to nearest, ties to even, 53
    significant bits), for results below 2^1024. *)
Definition round_double (z : Z) : Z :=
  let a := Z.abs z in
  if a <? 2 ^ 53 then z
  else
    let e := Z.log2 a - 52 in
    let q := Z.shiftr a e in
    let r := a - Z.shiftl q e in
    let half := Z.shiftl 1 (e - 1) in
    let q' := if (half <? r) || ((r =? half) && Z.odd q) then q + 1 else q in
    Z.sgn z * Z.shiftl q' e.

(** The decimal digits of a natural number. *)
Definition digits (n : Z) : string := NilZero.string_of_int (Z.to_int n).

Definition digit_count (n : Z) : Z := Z.of_nat (String.length (digits n)).

Fixpoint zeros (n : nat) : string :=
  match n with O => "" | S m => String "0" (zeros m) end.

(** The candidates [s] of [k] digits with [s * 10^(n-k)] a decimal that
    reads back as [x], each with its distance to [x]. *)
Definition candidates (x n k : Z) : list (Z * Z) :=
  let scale := 10 ^ (n - k) in
  filter (fun c => (10 ^ (k - 1) <=? c.1) && (c.1 <? 10 ^ k)
                   && (round_double (c.1 * scale) =? x))
         (map (fun c => (c, Z.abs (c * scale - x)))
              [x / scale; x / scale + 1]).

Definition closer (c d : Z * Z) : Z * Z :=
  if (d.2 <? c.2) || ((d.2 =? c.2) && Z.even d.1) then d else c.

(** The shortest digits that read back as [x]: the least [k], then the
    closest candidate, with its decimal exponent [n]. *)
Fixpoint shortest (x d : Z) (k : Z) (fuel : nat) : Z * Z * Z :=
  match fuel with
  | O => (d, d, x)
  | S fuel' =>
      let found :=
        flat_map (fun n => if k <=? n
                           then map (fun c => (n, c)) (candidates x n k)
                           else [])
                 [d - 1; d; d + 1] in
      match found with
      | [] => shortest x d (k + 1) fuel'
      | first :: rest =>
          let best :=
            fold_left (fun b c => if (closer b.2 c.2).1 =? b.2.1 then b else c)
                      rest first in
          (best.1, k, best.2.1)
      end
  end.

(** [Number.prototype.toString] on a non-negative integer double: the
    shortest digits, padded with zeros up to 21 digits and in exponent form
    beyond. *)
Definition nat_to_string (x : Z) : string :=
  if x =? 0 then "0"
  else
    let '(n, k, s) := shortest x (digit_count x) 1 17 in
    if n <=? 21 then digits s ++ zeros (Z.to_nat (n - k))
    else
      match digits s with
      | String c EmptyString => String c ("e+" ++ digits (n - 1))
      | String c rest => String c ("." ++ rest ++ "e+" ++ digits (n - 1))
      | EmptyString => ""
      end.

(** [Number.prototype.toString] on an integer double. *)
Definition num_to_string (n : Z) : string :=
  if n <? 0 then "-" ++ nat_to_string (- n) else nat_to_string n.

(** ToString. *)
Definition to_string (v : jsval) : string :=
  match v with
  | JUndefined => "undefined"
  | JNull => "null"
  | JNaN => "NaN"
  | JNum n => num_to_string n
  | JStr s => s
  | JBuiltin t => t
  end.

Definition digit_of (c : ascii) : option Z :=
  let n := Z.of_nat (nat_of_ascii c) in
  if (48 <=? n) && (n <=? 57) then Some (n - 48) else None.

Fixpoint digits_value (s : string) (acc : Z) : option Z :=
  match s with
  | EmptyString => Some acc
  | String c r =>
      match digit_of c with
      | Some d => digits_value r (10 * acc + d)
      | None => None
      end
  end.

(** ToNumber on a string, for the decimal integer literals (an optional
    sign and digits; the empty string is 0), rounded to a double.  [None]
    is NaN.  The other numeric literals (fractions, exponents, hexadecimal,
    padding white space) have no place in the integer model; the statements
    below that convert a string ask for a literal of this form. *)
Definition string_to_number (s : string) : option Z :=
  round_double <$>
    match s with
    | EmptyString => Some 0
    | String "-" (String _ _ as r) => Z.opp <$> digits_value r 0
    | String "+" (String _ _ as r) => digits_value r 0
    | _ => digits_value s 0
    end.

(** ToNumber; [None] is NaN. *)
Definition to_number (v : jsval) : option Z :=
  match v with
  | JUndefined => None
  | JNull => Some 0
  | JNaN => None
  | JNum n => Some n
  | JStr s => string_to_number s
  | JBuiltin t => string_to_number t
  end.

Definition of_number (o : option Z) : jsval :=
  match o with Some n => JNum n | None => JNaN end.

(** After ToPrimitive, is the operand a string? *)
Definition is_stringy (v : jsval) : bool :=
  match v with JStr _ | JBuiltin _ => true | _ => false end.

(** [a + b]: concatenation as soon as one operand is a string. *)
Definition add (a b : jsval) : jsval :=
  if is_stringy a || is_stringy b
  then JStr (to_string a ++ to_string b)
  else of_number (n ← to_number a; m ← to_number b;
                  Some (round_double (n + m))).

(** [a - b]. *)
Definition sub (a b : jsval) : jsval :=
  of_number (n ← to_number a; m ← to_number b; Some (round_double (n - m))).

(** [a >= b]: two strings are compared as strings, anything else as
    numbers, and a comparison with NaN is false. *)
Definition ge (a b : jsval) : bool :=
  if is_stringy a && is_stringy b
  then String.leb (to_string b) (to_string a)
  else match to_number a, to_number b with
       | Some n, Some m => m <=? n
       | _, _ => false
       end.

(** ToBoolean. *)
Definition truthy (v : jsval) : bool :=
  match v with
  | JUndefined | JNull | JNaN => false
  | JNum n => negb (n =? 0)
  | JStr s => negb (String.eqb s "")
  | JBuiltin _ => true
  end.

(** [v === s] and [v == s] for a string literal [s] that is not a numeric
    literal: both hold exactly when [v] is that string. *)
Definition eq_str (v : jsval) (s : string) : bool :=
  match v with JStr t => String.eqb t s | _ => false end.

(** The element conversion of [Array.prototype.join]: undefined and null
    become the empty string. *)
Definition join_elem (v : jsval) : string :=
  match v with
  | JUndefined | JNull => ""
  | _ => to_string v
  end.

(** [parts.join(sep)]. *)
Fixpoint join (sep : string) (parts : list jsval) : string :=
  match parts with
  | [] => ""
  | [v] => join_elem v
  | v :: rest => join_elem v ++ sep ++ join sep rest
  end.

(** *** Plain objects: own enumerable fields in insertion order *)

Definition jsobj : Type := list (string * jsval).

(** [o[k]] for an object whose prototype chain adds nothing ([k] a data
    field name). *)
Fixpoint get (o : jsobj) (k : string) : jsval :=
  match o with
  | [] => JUndefined
  | (k', v) :: r => if String.eqb k' k then v else get r k
  end.

(** [k in o], for own fields. *)
Definition has (o : jsobj) (k : string) : bool :=
  existsb (fun kv => String.eqb kv.1 k) o.

Arguments has : simpl never.

(** [o[k] = v]: an existing field keeps its place, a new one goes last. *)
Fixpoint set (o : jsobj) (k : string) (v : jsval) : jsobj :=
  match o with
  | [] => [(k, v)]
  | (k', v') :: r =>
      if String.eqb k' k then (k', v) :: r else (k', v') :: set r k v
  end.

(** [Object.assign(target, src)]. *)
Definition assign (target src : jsobj) : jsobj :=
  fold_left (fun t kv => set t kv.1 kv.2) src target.

(** *** JSON *)

(** What [JSON.stringify] makes of a field: undefined and functions are
    left out, NaN is written as null. *)
Definition json_field (kv : string * jsval) : option (string * jsval) :=
  match kv.2 with
  | JUndefined | JBuiltin _ => None
  | JNaN => Some (kv.1, JNull)
  | v => Some (kv.1, v)
  end.

(** Does [JSON.stringify] write a member for this value? *)
Definition serialisable (v : jsval) : bool :=
  match v with
  | JUndefined | JBuiltin _ => false
  | _ => true
  end.

(** Values a JSON text carries as they are: null, numbers, strings. *)
Definition json_data (o : list (string * jsval)) : bool :=
  forallb (fun kv => match kv.2 with
                     | JNull | JNum _ | JStr _ => true
                     | _ => false
                     end) o.

(** What reading a field back from the JSON text gives. *)
Definition json_value (v : jsval) : jsval :=
  match v with
  | JUndefined | JBuiltin _ => JUndefined
  | JNaN => JNull
  | _ => v
  end.

(** The object whose JSON text [JSON.stringify(o)] is. *)
Definition json_of (o : jsobj) : jsobj := omap json_field o.
Arguments json_of : simpl never.

(** The bytes under a ledger key.  [BufJson o] is the JSON text of an
    object with the members of [o] in that order; [BufEmpty] is the empty
    buffer the stub returns for a key that was never written; [BufRaw s] is
    any other content that is not a JSON text. *)
Inductive buffer : Type :=
  | BufEmpty
  | BufJson (o : jsobj)
  | BufRaw (s : string).

#[global] Instance buffer_eq_dec : EqDecision buffer.
Proof. solve_decision. Defined.

(** [Buffer.from(JSON.stringify(o))]. *)
Definition stringify (o : jsobj) : buffer := BufJson (json_of o).

(** [JSON.parse(buffer.toString())]: the members are defined in order
    on a fresh object, so that a repeated name keeps its first place and
    its last value.  The message of the [SyntaxError] is not kept: every
    caller in the chaincode drops or logs the error. *)
Definition parse (b : buffer) : error + jsobj :=
  match b with
  | BufJson o => inr (assign [] o)
  | BufEmpty | BufRaw _ => inl SyntaxError
  end.

End Js.

(* ===================================================================== *)
(** ** The ledger stub and the invocation monad *)
(* ===================================================================== *)
Module Ledger.
Import Js.

(** What an invocation did to the ledger, in order. *)
Inductive event : Type :=
  | Get (key : string)
  | Put (key : string) (value : buffer).

#[global] Instance event_eq_dec : EqDecision event.
Proof. solve_decision. Defined.

Definition is_put (e : event) : bool :=
  match e with Put _ _ => true | Get _ => false end.

Inductive outcome (A : Type) : Type :=
  | Returned (a : A)
  | Thrown (e : error).
Arguments Returned {A} a.
Arguments Thrown {A} e.

(** An [async] function of a contract: it reads the world state, extends
    the trace and returns or throws.  Reads see the state the invocation
    started from, as [getState] does. *)
Definition Inv (A : Type) : Type :=
  gmap string buffer -> list event -> outcome A * list event.

Definition ret {A} (a : A) : Inv A := fun _ tr => (Returned a, tr).

Definition throw {A} (e : error) : Inv A := fun _ tr => (Thrown e, tr).

Definition bind {A B} (m : Inv A) (k : A -> Inv B) : Inv B :=
  fun w tr =>
    match m w tr with
    | (Returned a, tr') => k a w tr'
    | (Thrown e, tr') => (Thrown e, tr')
    end.

(** [m.catch(err => console.log(err))]: a rejection becomes undefined. *)
Definition catch_log {A} (m : Inv A) : Inv (option A) :=
  fun w tr =>
    match m w tr with
    | (Returned a, tr') => (Returned (Some a), tr')
    | (Thrown _, tr') => (Returned None, tr')
    end.

(** [try { x = f() } catch (err) { x = undefined }]. *)
Definition try_undefined {A} (r : error + A) : option A :=
  match r with inr a => Some a | inl _ => None end.

(** A synchronous call that may throw, inside an [async] function. *)
Definition lift {A} (r : error + A) : Inv A :=
  match r with inr a => ret a | inl e => throw e end.

(** [ctx.stub.getState(key)]: the empty buffer for a key never written. *)
Definition getState (key : string) : Inv buffer :=
  fun w tr => (Returned (default BufEmpty (w !! key)), (tr ++ [Get key])%list).

(** [ctx.stub.putState(key, value)]. *)
Definition putState (key : string) (value : buffer) : Inv unit :=
  fun _ tr => (Returned tt, (tr ++ [Put key value])%list).

Definition NUL : string := String Ascii.zero EmptyString.

(** [ctx.stub.createCompositeKey(objectType, attributes)]: the object
    type and every attribute, each closed by U+0000, after a leading
    U+0000.  This is the key the stub builds from the attributes it
    accepts, the non-empty strings; on any other attribute it throws before
    the read or the write that would follow.  A [name:aadhar] key is never
    empty; the statements below on a property id or an owner that no
    stored record fixes ask for a non-empty string. *)
Definition createCompositeKey (objectType : string) (attributes : list jsval)
  : string :=
  fold_left (fun key a => key ++ to_string a ++ NUL) attributes
            (NUL ++ objectType ++ NUL).

(** The ledger after the events of a trace. *)
Definition apply_event (w : gmap string buffer) (e : event)
  : gmap string buffer :=
  match e with
  | Get _ => w
  | Put k v => <[k:=v]> w
  end.

Definition commit (tr : list event) (w : gmap string buffer)
  : gmap string buffer :=
  fold_left apply_event tr w.

(** One transaction: the writes are applied when the function returns
    and dropped when it throws. *)
Definition invoke {A} (m : Inv A) (w : gmap string buffer)
  : outcome A * gmap string buffer :=
  match m w [] with
  | (Returned a, tr) => (Returned a, commit tr w)
  | (Thrown e, _) => (Thrown e, w)
  end.

(** The run of a transaction on a ledger, with its trace. *)
Definition run {A} (m : Inv A) (w : gmap string buffer)
  : outcome A * list event := m w [].

End Ledger.

Notation "'let!' x ':=' m 'in' k" := (Ledger.bind m (fun x => k))
  (at level 10, x name, m at level 100, k at level 200,
   format "'[v' 'let!'  x  ':='  m  'in' '/' k ']'").

(* ===================================================================== *)
(** ** lib/models *)
(* ===================================================================== *)

(** lib/models/user.js *)
Module User.
Import Js.

Definition makeKey (keyParts : list jsval) : string := join ":" keyParts.

(** [constructor(userObject)]: [this.key] first, then the fields of
    [userObject] over it. *)
Definition new (userObject : jsobj) : jsobj :=
  assign [("key", JStr (makeKey [get userObject "name";
                                 get userObject "aadhar"]))]
         userObject.

Definition fromBuffer (buffer : buffer) : error + jsobj :=
  match parse buffer with
  | inr json => inr (new json)
  | inl e => inl e
  end.

Definition toBuffer (this : jsobj) : buffer := stringify this.

Definition getKey (this : jsobj) : jsval := get this "key".

Definition createInstance (userObject : jsobj) : jsobj := new userObject.

End User.

(** lib/models/property.js *)
Module Property.
Import Js.

Definition makeKey (keyParts : list jsval) : string := join ":" keyParts.

Definition new (propertyObject : jsobj) : jsobj :=
  assign [("key", JStr (makeKey [get propertyObject "propertyId"]))]
         propertyObject.

Definition fromBuffer (buffer : buffer) : error + jsobj :=
  match parse buffer with
  | inr json => inr (new json)
  | inl e => inl e
  end.

Definition toBuffer (this : jsobj) : buffer := stringify this.

Definition getKey (this : jsobj) : jsval := get this "key".

Definition createInstance (propertyObject : jsobj) : jsobj :=
  new propertyObject.

End Property.

(* ===================================================================== *)
(** ** lib/lists *)
(* ===================================================================== *)

(** lib/lists/propertylist.js *)
Module PropertyList.
Import Js Ledger.

Definition name : string :=
  "org.property-registration-network.regnet.property.".

Definition getProperty (propertyKey : string) : Inv jsobj :=
  let propertyCompositeKey := createCompositeKey name [JStr propertyKey] in
  let! propertyBuffer := getState propertyCompositeKey in
  lift (Property.fromBuffer propertyBuffer).

Definition addProperty (propertyObject : jsobj) : Inv unit :=
  let propertyCompositeKey :=
    createCompositeKey name [Property.getKey propertyObject] in
  let propertyBuffer := Property.toBuffer propertyObject in
  putState propertyCompositeKey propertyBuffer.

Definition updateProperty (propertyObject : jsobj) : Inv unit :=
  let propertyCompositeKey :=
    createCompositeKey name [Property.getKey propertyObject] in
  let propertyBuffer := Property.toBuffer propertyObject in
  putState propertyCompositeKey propertyBuffer.

End PropertyList.

(** Modelled from the spec: lib/lists/userlist.js is not among the
    sources.  The spec's Entity Store has one namespaced store per entity
    type with [get], [put] and [update] ("semantically identical to put"),
    so [UserList] mirrors [PropertyList] over the [User] model.  Its
    namespace is the prefix under which [requestNewUser] and
    [approveNewUserRequest] read the user record: [requestNewUser] tells an
    approved user from a pending one at that very key, and the spec keeps
    the two as one record with or without the balance field. *)
Module UserList.
Import Js Ledger.

Definition name : string :=
  "org.property-registration-network.regnet.user.".

Definition getUser (userKey : jsval) : Inv jsobj :=
  let userCompositeKey := createCompositeKey name [userKey] in
  let! userBuffer := getState userCompositeKey in
  lift (User.fromBuffer userBuffer).

Definition addUser (userObject : jsobj) : Inv unit :=
  let userCompositeKey :=
    createCompositeKey name [User.getKey userObject] in
  let userBuffer := User.toBuffer userObject in
  putState userCompositeKey userBuffer.

Definition updateUser (userObject : jsobj) : Inv unit :=
  let userCompositeKey :=
    createCompositeKey name [User.getKey userObject] in
  let userBuffer := User.toBuffer userObject in
  putState userCompositeKey userBuffer.

End UserList.

(* ===================================================================== *)
(** ** The transaction context *)
(* ===================================================================== *)

(** What a transaction takes from [ctx] besides the stub: the MSP of the
    client identity, and the clock [new Date()] reads (as the ISO string
    [JSON.stringify] writes for it). *)
Record Context : Type := {
  getMSPID : string;
  now : string
}.

(* ===================================================================== *)
(** ** usercontract.js *)
(* ===================================================================== *)
Module UserContract.
Import Js Ledger.

(** The properties every object literal inherits from
    [Object.prototype]. *)
Definition native (f : string) : jsval :=
  JBuiltin ("function " ++ f ++ "() { [native code] }").

Definition Object_prototype : jsobj :=
  [ ("constructor", native "Object");
    ("__defineGetter__", native "__defineGetter__");
    ("__defineSetter__", native "__defineSetter__");
    ("hasOwnProperty", native "hasOwnProperty");
    ("__lookupGetter__", native "__lookupGetter__");
    ("__lookupSetter__", native "__lookupSetter__");
    ("isPrototypeOf", native "isPrototypeOf");
    ("propertyIsEnumerable", native "propertyIsEnumerable");
    ("toString", native "toString");
    ("valueOf", native "valueOf");
    ("__proto__", JBuiltin "[object Object]");
    ("toLocaleString", native "toLocaleString") ].

(** [literal[k]] for an object literal and a key the caller chooses: own
    fields first, then [Object.prototype]. *)
Definition get_literal (literal : jsobj) (k : string) : jsval :=
  if has literal k then get literal k else get Object_prototype k.

Definition VALID_TRANSACTIONS : jsobj :=
  [ ("upg100", JNum 100); ("upg500", JNum 500); ("upg1000", JNum 1000) ].

Definition REGISTERED : string := "registered".
Definition ON_SALE : string := "onSale".

Definition user_prefix : string :=
  "org.property-registration-network.regnet.user.".
Definition property_prefix : string :=
  "org.property-registration-network.regnet.property.".

Definition requestNewUser (ctx : Context) (name email phone aadhar : string)
  : Inv jsobj :=
  if negb (String.eqb (getMSPID ctx) "usersMSP") then
    throw (Error "Only users should be allowed to raise a new user request")
  else
    let userKey := User.makeKey [JStr name; JStr aadhar] in
    let userCompositeKey := createCompositeKey user_prefix [JStr userKey] in
    let! userBuffer := getState userCompositeKey in
    let existingUser := try_undefined (parse userBuffer) in
    match existingUser with
    | Some existingUser =>
        if ge (get existingUser "upgradCoins") (JNum 0) then
          throw (Error ("User with name " ++ name ++ " and aadhar " ++ aadhar
                        ++ " already exists"))
        else
          throw (Error ("User Registration Request for name " ++ name
                        ++ " and aadhar " ++ aadhar ++ "is already exists"))
    | None =>
        let userObj : jsobj :=
          [ ("name", JStr name); ("email", JStr email);
            ("phone", JStr phone); ("aadhar", JStr aadhar);
            ("createdAt", JStr (now ctx)) ] in
        let! _ := putState userCompositeKey (stringify userObj) in
        ret userObj
    end.

Definition rechargeAccount (ctx : Context) (name aadhar transactionID : string)
  : Inv unit :=
  if negb (String.eqb (getMSPID ctx) "usersMSP") then
    throw (Error "Only users should be allowed to recharge accounts")
  else
    if truthy (get_literal VALID_TRANSACTIONS transactionID) then
      let upgradCoins := get_literal VALID_TRANSACTIONS transactionID in
      let userKey := User.makeKey [JStr name; JStr aadhar] in
      let! user := catch_log (UserList.getUser (JStr userKey)) in
      match user with
      | None =>
          throw (Error ("There is no user with name " ++ name
                        ++ " and aadhar " ++ aadhar ++ " exists"))
      | Some user =>
          let user := set user "upgradCoins"
                          (add (get user "upgradCoins") upgradCoins) in
          UserList.updateUser user
      end
    else
      throw (Error "Invalid Bank Transaction ID").

Definition viewUser (ctx : Context) (name aadhar : string) : Inv jsobj :=
  let userKey := User.makeKey [JStr name; JStr aadhar] in
  let userCompositeKey := createCompositeKey user_prefix [JStr userKey] in
  let! userBuffer := getState userCompositeKey in
  match try_undefined (parse userBuffer) with
  | None =>
      throw (Error ("There is no user with name " ++ name
                    ++ " and aadhar " ++ aadhar ++ " exists"))
  | Some userObj => ret userObj
  end.

Definition propertyRegistrationRequest (ctx : Context)
    (name aadhar propertyId : string) (price : jsval) : Inv jsobj :=
  if negb (String.eqb (getMSPID ctx) "usersMSP") then
    throw (Error
      "Only users should be used to raise property registration request")
  else
    let userKey := User.makeKey [JStr name; JStr aadhar] in
    let propertyKey := Property.makeKey [JStr propertyId] in
    let propertyCompositeKey :=
      createCompositeKey property_prefix [JStr propertyKey] in
    let! propertyBuffer := getState propertyCompositeKey in
    match try_undefined (parse propertyBuffer) with
    | Some property =>
        if eq_str (get property "status") REGISTERED then
          throw (Error ("Property with propertyId " ++ propertyId
                        ++ "is already exists"))
        else
          throw (Error ("Property Registration request for propertyId "
                        ++ propertyId ++ "is already exists"))
    | None =>
        let! user := catch_log (UserList.getUser (JStr userKey)) in
        match user with
        | None =>
            throw (Error ("There is no approved user with name " ++ name
                          ++ " and aadhar " ++ aadhar ++ " exists"))
        | Some _ =>
            let propertyObj : jsobj :=
              [ ("propertyId", JStr propertyId); ("owner", JStr userKey);
                ("price", price) ] in
            let! _ := putState propertyCompositeKey (stringify propertyObj) in
            ret propertyObj
        end
    end.

Definition viewProperty (ctx : Context) (propertyId : string) : Inv jsobj :=
  let propertyKey := Property.makeKey [JStr propertyId] in
  let! propertyObj := catch_log (PropertyList.getProperty propertyKey) in
  match propertyObj with
  | None =>
      throw (Error ("There is no registered property with propertyId "
                    ++ propertyId ++ " exists"))
  | Some propertyObj => ret propertyObj
  end.

Definition updateProperty (ctx : Context)
    (name aadhar propertyId status : string) : Inv unit :=
  let userKey := User.makeKey [JStr name; JStr aadhar] in
  let propertyKey := Property.makeKey [JStr propertyId] in
  let! propertyObj := catch_log (PropertyList.getProperty propertyKey) in
  match propertyObj with
  | None =>
      throw (Error ("Property with propertyId " ++ propertyId
                    ++ " does not exists"))
  | Some propertyObj =>
      if eq_str (get propertyObj "owner") userKey then
        if String.eqb status REGISTERED || String.eqb status ON_SALE then
          let propertyObj := set propertyObj "status" (JStr status) in
          PropertyList.updateProperty propertyObj
        else
          throw (Error
            "The input value of the status should be either registered or onSale")
      else
        throw (Error
          "Only authorized users can update the value of this property")
  end.

Definition purchaseProperty (ctx : Context) (name aadhar propertyId : string)
  : Inv unit :=
  let userKey := User.makeKey [JStr name; JStr aadhar] in
  let! user := catch_log (UserList.getUser (JStr userKey)) in
  let propertyKey := Property.makeKey [JStr propertyId] in
  let! property := catch_log (PropertyList.getProperty propertyKey) in
  match user, property with
  | Some user, Some property =>
      if eq_str (get property "status") ON_SALE then
        if ge (get user "upgradCoins") (get property "price") then
          let oldOwnerKey := get property "owner" in
          let! oldOwner := catch_log (UserList.getUser oldOwnerKey) in
          let property := set property "status" (JStr REGISTERED) in
          let user := set user "upgradCoins"
                          (sub (get user "upgradCoins")
                               (get property "price")) in
          match oldOwner with
          | None => throw TypeError
          | Some oldOwner =>
              let oldOwner := set oldOwner "upgradCoins"
                                  (add (get oldOwner "upgradCoins")
                                       (get property "price")) in
              let property := set property "owner" (JStr userKey) in
              let! _ := PropertyList.updateProperty property in
              let! _ := UserList.updateUser user in
              UserList.updateUser oldOwner
          end
        else
          throw (Error ("There are no sufficient funds for the user with name "
                        ++ name ++ " and aadhar " ++ aadhar
                        ++ " to purchase this property"))
      else
        throw (Error ("The property with propertyId " ++ propertyId
                      ++ " is not onSale"))
  | _, _ =>
      throw (Error ("There is no user with name " ++ name ++ " and aadhar "
                    ++ aadhar ++ " exists " ++ String "010" " OR "
                    ++ String "010"
                         " There is no registered property with propertyId "
                    ++ propertyId ++ " exists"))
  end.

End UserContract.

(* ===================================================================== *)
(** ** The registrar's contract *)
(* ===================================================================== *)
Module RegistrarContract.
Import Js Ledger.

Definition user_prefix : string :=
  "org.property-registration-network.regnet.user.".
Definition property_prefix : string :=
  "org.property-registration-network.regnet.property.".

Definition approveNewUserRequest (ctx : Context) (name aadhar : string)
  : Inv jsobj :=
  if negb (String.eqb (getMSPID ctx) "registrarMSP") then
    throw (Error "Registrar's can only approve new user request")
  else
    let userKey := User.makeKey [JStr name; JStr aadhar] in
    let userCompositeKey := createCompositeKey user_prefix [JStr userKey] in
    let! userRequestBuffer := getState userCompositeKey in
    match try_undefined (parse userRequestBuffer) with
    | None =>
        throw (Error ("The new user request for name " ++ name
                      ++ " and aadhar " ++ aadhar ++ " does not exists."))
    | Some userRequestObj =>
        let userRequestObj := set userRequestObj "upgradCoins" (JNum 0) in
        let userObj := User.createInstance userRequestObj in
        let! _ := UserList.addUser userObj in
        ret userObj
    end.

Definition viewUser (ctx : Context) (name aadhar : string) : Inv jsobj :=
  let userKey := User.makeKey [JStr name; JStr aadhar] in
  let userCompositeKey := createCompositeKey user_prefix [JStr userKey] in
  let! userBuffer := getState userCompositeKey in
  match try_undefined (parse userBuffer) with
  | None =>
      throw (Error ("There is no user with name " ++ name
                    ++ " and aadhar " ++ aadhar ++ " exists"))
  | Some userObj => ret userObj
  end.

Definition approvePropertyRegistrationRequest (ctx : Context)
    (propertyId : string) : Inv jsobj :=
  if negb (String.eqb (getMSPID ctx) "registrarMSP") then
    throw (Error "Registrar's can only approve property registration request")
  else
    let propertyKey := Property.makeKey [JStr propertyId] in
    let propertyCompositeKey :=
      createCompositeKey property_prefix [JStr propertyKey] in
    let! propertyRequestBuffer := getState propertyCompositeKey in
    match try_undefined (parse propertyRequestBuffer) with
    | None =>
        throw (Error ("Property with propertyId " ++ propertyId
                      ++ " does not exists."))
    | Some propertyRequestObj =>
        let propertyRequestObj :=
          set propertyRequestObj "status" (JStr "registered") in
        let property := Property.createInstance propertyRequestObj in
        let! _ := PropertyList.addProperty property in
        ret property
    end.

(** [viewProperty] does not await the fetch: [propertyObj] is the pending
    promise, which is never undefined, and the transaction resolves to
    what the fetch resolves to, the property or undefined. *)
Definition viewProperty (ctx : Context) (propertyId : string)
  : Inv (option jsobj) :=
  let propertyKey := Property.makeKey [JStr propertyId] in
  let! propertyObj := catch_log (PropertyList.getProperty propertyKey) in
  ret propertyObj.

End RegistrarContract.

(* ===================================================================== *)
(** ** Reading the ledger, and the dispatcher *)
(* ===================================================================== *)
Module Store.
Import Js Ledger.

(** What [ctx.userList.getUser(userKey).catch(...)] resolves to. *)
Definition stored_user (w : gmap string buffer) (userKey : jsval)
  : option jsobj :=
  try_undefined
    (User.fromBuffer
       (default BufEmpty (w !! createCompositeKey UserList.name [userKey]))).

(** What [ctx.propertyList.getProperty(propertyKey).catch(...)] resolves
    to. *)
Definition stored_property (w : gmap string buffer) (propertyKey : string)
  : option jsobj :=
  try_undefined
    (Property.fromBuffer
       (default BufEmpty
          (w !! createCompositeKey PropertyList.name [JStr propertyKey]))).

(** The [upgradCoins] of the record of a user key; undefined without a
    record. *)
Definition balance (w : gmap string buffer) (userKey : string) : jsval :=
  match stored_user w (JStr userKey) with
  | Some user => get user "upgradCoins"
  | None => JUndefined
  end.

(** The transactions that write, with their arguments. *)
Inductive call : Type :=
  | RequestNewUser (name email phone aadhar : string)
  | RechargeAccount (name aadhar transactionID : string)
  | PropertyRegistrationRequest (name aadhar propertyId : string)
                                (price : jsval)
  | ApproveNewUserRequest (name aadhar : string)
  | ApprovePropertyRegistrationRequest (propertyId : string)
  | UpdateProperty (name aadhar propertyId status : string)
  | PurchaseProperty (name aadhar propertyId : string).

(** The transaction a call names; the returned object, if there is one. *)
Definition dispatch (ctx : Context) (c : call) : Inv (option jsobj) :=
  match c with
  | RequestNewUser name email phone aadhar =>
      let! r := UserContract.requestNewUser ctx name email phone aadhar in
      ret (Some r)
  | RechargeAccount name aadhar transactionID =>
      let! _ := UserContract.rechargeAccount ctx name aadhar transactionID in
      ret None
  | PropertyRegistrationRequest name aadhar propertyId price =>
      let! r := UserContract.propertyRegistrationRequest
                  ctx name aadhar propertyId price in
      ret (Some r)
  | ApproveNewUserRequest name aadhar =>
      let! r := RegistrarContract.approveNewUserRequest ctx name aadhar in
      ret (Some r)
  | ApprovePropertyRegistrationRequest propertyId =>
      let! r := RegistrarContract.approvePropertyRegistrationRequest
                  ctx propertyId in
      ret (Some r)
  | UpdateProperty name aadhar propertyId status =>
      let! _ := UserContract.updateProperty
                  ctx name aadhar propertyId status in
      ret None
  | PurchaseProperty name aadhar propertyId =>
      let! _ := UserContract.purchaseProperty ctx name aadhar propertyId in
      ret None
  end.

(** A call refused at once: the error is thrown before any read or write
    and the ledger is as it was. *)
Definition refused {A} (m : Inv A) (w : gmap string buffer) (msg : string)
  : Prop :=
  run m w = (Thrown (Error msg), []) /\ invoke m w = (Thrown (Error msg), w).

(** The three records [purchaseProperty] writes, from the three it read. *)
Definition sold (property : jsobj) (userKey : string) : jsobj :=
  set (set property "status" (JStr "registered")) "owner" (JStr userKey).

Definition debited (user : jsobj) (price : jsval) : jsobj :=
  set user "upgradCoins" (sub (get user "upgradCoins") price).

Definition credited (oldOwner : jsobj) (price : jsval) : jsobj :=
  set oldOwner "upgradCoins" (add (get oldOwner "upgradCoins") price).

(** Every record the lists can read sits under the ledger key its own
    [key] field names. *)
Definition keyed (w : gmap string buffer) : Prop :=
  (forall key user,
     stored_user w (JStr key) = Some user -> User.getKey user = JStr key) /\
  (forall key property,
     stored_property w key = Some property ->
     Property.getKey property = JStr key).

(** A write that keeps the ledger [keyed]: a JSON text under a key of one
    of the two lists, read back with that key. *)
Definition keyed_put (e : event) : Prop :=
  match e with
  | Get _ => True
  | Put ck value =>
      (exists key o,
         ck = createCompositeKey UserList.name [JStr key] /\
         value = BufJson o /\
         User.getKey (User.new (assign [] o)) = JStr key) \/
      (exists key o,
         ck = createCompositeKey PropertyList.name [JStr key] /\
         value = BufJson o /\
         Property.getKey (Property.new (assign [] o)) = JStr key)
  end.

(** The ledgers the transactions can produce from the empty one. *)
Inductive reachable : gmap string buffer -> Prop :=
  | reachable_empty : reachable ∅
  | reachable_invoke ctx c w :
      reachable w -> reachable (invoke (dispatch ctx c) w).2.

(** The transactions on user records, and those on property records
    ([purchaseProperty] is both). *)
Definition user_call (c : call) : bool :=
  match c with
  | RequestNewUser _ _ _ _ | RechargeAccount _ _ _
  | ApproveNewUserRequest _ _ => true
  | _ => false
  end.

Definition property_call (c : call) : bool :=
  match c with
  | PropertyRegistrationRequest _ _ _ _
  | ApprovePropertyRegistrationRequest _
  | UpdateProperty _ _ _ _ => true
  | _ => false
  end.

(** The read-only transactions of the two contracts. *)
Inductive view : Type :=
  | UserViewUser (name aadhar : string)
  | UserViewProperty (propertyId : string)
  | RegistrarViewUser (name aadhar : string)
  | RegistrarViewProperty (propertyId : string).

Definition dispatch_view (ctx : Context) (v : view) : Inv (option jsobj) :=
  match v with
  | UserViewUser name aadhar =>
      let! r := UserContract.viewUser ctx name aadhar in ret (Some r)
  | UserViewProperty propertyId =>
      let! r := UserContract.viewProperty ctx propertyId in ret (Some r)
  | RegistrarViewUser name aadhar =>
      let! r := RegistrarContract.viewUser ctx name aadhar in ret (Some r)
  | RegistrarViewProperty propertyId =>
      RegistrarContract.viewProperty ctx propertyId
  end.

(** Every write of the trace goes to a key of the given list. *)
Definition puts_within (objectType : string) (tr : list event) : Prop :=
  Forall (fun e => match e with
                   | Get _ => True
                   | Put ck _ =>
                       exists key, ck = createCompositeKey objectType [key]
                   end) tr.

(** No write among the events. *)
Definition no_put (tr : list event) : bool :=
  forallb (fun e => negb (is_put e)) tr.

End Store.

(* ===================================================================== *)
(** ** A small network to run the transactions on *)
(* ===================================================================== *)
Module Scenario.
Import Js Ledger.

Definition asUser : Context :=
  {| getMSPID := "usersMSP"; now := "2021-01-01T00:00:00.000Z" |}.
Definition asRegistrar : Context :=
  {| getMSPID := "registrarMSP"; now := "2021-01-01T00:00:00.000Z" |}.

(** The ledger after a transaction, whatever it returned. *)
Definition after {A} (m : Inv A) (w : gmap string buffer)
  : gmap string buffer := (invoke m w).2.

(** alice and bob ask for an account and the registrar approves both. *)
Definition w_users : gmap string buffer :=
  after (RegistrarContract.approveNewUserRequest asRegistrar "bob" "2")
  (after (RegistrarContract.approveNewUserRequest asRegistrar "alice" "1")
  (after (UserContract.requestNewUser asUser "bob" "b@x" "22" "2")
  (after (UserContract.requestNewUser asUser "alice" "a@x" "11" "1") ∅))).

(** Both recharge 500. *)
Definition w_funded : gmap string buffer :=
  after (UserContract.rechargeAccount asUser "bob" "2" "upg500")
  (after (UserContract.rechargeAccount asUser "alice" "1" "upg500") w_users).

(** alice registers the property P1 at price 40 and puts it on sale. *)
Definition w_onsale : gmap string buffer :=
  after (UserContract.updateProperty asUser "alice" "1" "P1" "onSale")
  (after (RegistrarContract.approvePropertyRegistrationRequest asRegistrar "P1")
  (after (UserContract.propertyRegistrationRequest asUser "alice" "1" "P1"
            (JNum 40)) w_funded)).

(** carol has asked for an account and is not approved yet. *)
Definition w_pending : gmap string buffer :=
  after (UserContract.requestNewUser asUser "carol" "c@x" "33" "3") w_users.

(** dave joins after P1 went on sale, and is approved: no coins yet. *)
Definition w_newcomer : gmap string buffer :=
  after (RegistrarContract.approveNewUserRequest asRegistrar "dave" "4")
  (after (UserContract.requestNewUser asUser "dave" "d@x" "44" "4") w_onsale).

(** A ledger with a property on sale whose owner has no record: erin
    was never registered. *)
Definition w_orphan : gmap string buffer :=
  <[ createCompositeKey PropertyList.name [JStr "P7"] :=
       stringify [ ("key", JStr "P7"); ("propertyId", JStr "P7");
                   ("owner", JStr "erin:5"); ("price", JNum 40);
                   ("status", JStr "onSale") ] ]> w_funded.

(** bob registers P3 with the price as the string the client sent. *)
Definition w_text_price : gmap string buffer :=
  after (UserContract.updateProperty asUser "bob" "2" "P3" "onSale")
  (after (RegistrarContract.approvePropertyRegistrationRequest asRegistrar "P3")
  (after (UserContract.propertyRegistrationRequest asUser "bob" "2" "P3"
            (JStr "40")) w_funded)).

(** bob registers P4 at the text price "1" and sells it to alice; his
    balance is then the text "5001". *)
Definition w_text_sale : gmap string buffer :=
  after (UserContract.purchaseProperty asUser "alice" "1" "P4")
  (after (UserContract.updateProperty asUser "bob" "2" "P4" "onSale")
  (after (RegistrarContract.approvePropertyRegistrationRequest asRegistrar "P4")
  (after (UserContract.propertyRegistrationRequest asUser "bob" "2" "P4"
            (JStr "1")) w_funded))).

(** alice then puts P5 on sale at the text price "50000". *)
Definition w_text_balance : gmap string buffer :=
  after (UserContract.updateProperty asUser "alice" "1" "P5" "onSale")
  (after (RegistrarContract.approvePropertyRegistrationRequest asRegistrar "P5")
  (after (UserContract.propertyRegistrationRequest asUser "alice" "1" "P5"
            (JStr "50000")) w_text_sale)).

(** The records the lists return on these ledgers. *)
Definition alice : jsobj :=
  Eval vm_compute in default [] (Store.stored_user w_onsale (JStr "alice:1")).
Definition bob : jsobj :=
  Eval vm_compute in default [] (Store.stored_user w_onsale (JStr "bob:2")).
Definition carol : jsobj :=
  Eval vm_compute in default [] (Store.stored_user w_pending (JStr "carol:3")).
Definition dave : jsobj :=
  Eval vm_compute in default [] (Store.stored_user w_newcomer (JStr "dave:4")).
Definition P7 : jsobj :=
  Eval vm_compute in default [] (Store.stored_property w_orphan "P7").
Definition P3 : jsobj :=
  Eval vm_compute in default [] (Store.stored_property w_text_price "P3").
Definition alice_funded : jsobj :=
  Eval vm_compute in default [] (Store.stored_user w_funded (JStr "alice:1")).
Definition bob_funded : jsobj :=
  Eval vm_compute in default [] (Store.stored_user w_funded (JStr "bob:2")).
Definition P1 : jsobj :=
  Eval vm_compute in default [] (Store.stored_property w_onsale "P1").

End Scenario.

Import Js Ledger Store.

Example scenario_balances :
  balance Scenario.w_onsale "alice:1" = JNum 500 /\
  balance Scenario.w_onsale "bob:2" = JNum 500 /\
  stored_property Scenario.w_onsale "P1" =
    Some [("key", JStr "P1"); ("propertyId", JStr "P1");
          ("owner", JStr "alice:1"); ("price", JNum 40);
          ("status", JStr "onSale")].
Proof. vm_compute. auto. Qed.

(* ===================================================================== *)
(** ** Objects: fields, assignment, JSON *)
(* ===================================================================== *)
Section objects.
Implicit Types (o t src : jsobj) (k : string) (v : jsval).

Lemma eqb_neq k k' : k ≠ k' -> String.eqb k k' = false.
Proof. intros H. by apply String.eqb_neq. Qed.

Lemma has_cons k0 v0 o k :
  has ((k0, v0) :: o) k = String.eqb k0 k || has o k.
Proof. reflexivity. Qed.

Lemma has_true o k : has o k = true <-> k ∈ o.*1.
Proof.
  induction o as [|[k0 v0] r IH]; csimpl.
  - split; [done | by intros ?%elem_of_nil].
  - rewrite has_cons, elem_of_cons, orb_true_iff, IH, String.eqb_eq.
    split; intros [?|?]; auto.
Qed.

Lemma has_false o k : has o k = false <-> k ∉ o.*1.
Proof. rewrite <- has_true. by destruct (has o k). Qed.

Lemma get_absent o k : k ∉ o.*1 -> get o k = JUndefined.
Proof.
  induction o as [|[k0 v0] r IH]; simpl; [done|].
  intros [Hne Hr]%not_elem_of_cons. by rewrite eqb_neq, IH.
Qed.

Lemma get_set_eq o k v : get (set o k v) k = v.
Proof.
  induction o as [|[k0 v0] r IH]; simpl.
  - by rewrite String.eqb_refl.
  - destruct (String.eqb k0 k) eqn:E; simpl; by rewrite E.
Qed.

Lemma get_set_ne o k k' v : k ≠ k' -> get (set o k v) k' = get o k'.
Proof.
  intros Hne. induction o as [|[k0 v0] r IH]; simpl.
  - by rewrite eqb_neq.
  - destruct (String.eqb k0 k) eqn:E; simpl.
    + apply String.eqb_eq in E as ->. by rewrite eqb_neq.
    + by rewrite IH.
Qed.

Lemma set_fresh o k v : k ∉ o.*1 -> set o k v = (o ++ [(k, v)])%list.
Proof.
  induction o as [|[k0 v0] r IH]; simpl; [done|].
  intros [Hne Hr]%not_elem_of_cons. by rewrite eqb_neq, IH.
Qed.

Lemma keys_set_present o k v : k ∈ o.*1 -> (set o k v).*1 = o.*1.
Proof.
  induction o as [|[k0 v0] r IH]; csimpl; [by intros ?%elem_of_nil|].
  destruct (String.eqb k0 k) eqn:E; csimpl; [done|].
  intros [->|Hr]%elem_of_cons.
  - by rewrite String.eqb_refl in E.
  - by rewrite IH.
Qed.

Lemma NoDup_set o k v : NoDup o.*1 -> NoDup (set o k v).*1.
Proof.
  intros Hnd. destruct (decide (k ∈ o.*1)) as [Hin|Hout].
  - by rewrite keys_set_present.
  - rewrite set_fresh, fmap_app by done. simpl.
    apply NoDup_app. split_and!; [done| |apply NoDup_singleton].
    intros x Hx ->%list_elem_of_singleton. done.
Qed.

Lemma NoDup_assign t src : NoDup t.*1 -> NoDup (assign t src).*1.
Proof.
  unfold assign. revert t.
  induction src as [|[k0 v0] r IH]; intros t Ht; simpl; [done|].
  apply IH. by apply NoDup_set.
Qed.

(** On distinct names, the last assignment wins. *)
Lemma get_assign t src k :
  NoDup src.*1 ->
  get (assign t src) k = if has src k then get src k else get t k.
Proof.
  unfold assign. revert t.
  induction src as [|[k0 v0] r IH]; intros t Hnd; simpl; [done|].
  apply NoDup_cons in Hnd as [Hk0 Hr]. simpl in Hk0.
  rewrite IH, has_cons by done.
  destruct (String.eqb k0 k) eqn:E; simpl.
  - apply String.eqb_eq in E as ->.
    apply has_false in Hk0 as ->. apply get_set_eq.
  - destruct (has r k); [done|]. apply get_set_ne.
    intros ->. by rewrite String.eqb_refl in E.
Qed.

(** Fresh, distinct names are appended in order. *)
Lemma assign_fresh t src :
  NoDup (t.*1 ++ src.*1) -> assign t src = (t ++ src)%list.
Proof.
  unfold assign. revert t.
  induction src as [|[k0 v0] r IH]; intros t Hnd; simpl.
  - by rewrite app_nil_r.
  - rewrite set_fresh.
    + rewrite IH; [by rewrite <- app_assoc|].
      rewrite fmap_app. simpl. by rewrite <- app_assoc.
    + apply NoDup_app in Hnd as (_ & Hd & _). intros Hin.
      apply (Hd _ Hin). simpl. apply elem_of_cons. by left.
Qed.

Lemma parse_assign_id o : NoDup o.*1 -> assign [] o = o.
Proof. intros. by rewrite assign_fresh. Qed.

Lemma json_of_cons k v o :
  json_of ((k, v) :: o) =
  match v with
  | JUndefined | JBuiltin _ => json_of o
  | JNaN => (k, JNull) :: json_of o
  | _ => (k, v) :: json_of o
  end.
Proof. by destruct v. Qed.

Lemma json_of_keys o k : k ∈ (json_of o).*1 -> k ∈ o.*1.
Proof.
  induction o as [|[k0 v0] r IH]; [done|].
  rewrite json_of_cons. csimpl. rewrite elem_of_cons.
  destruct v0; csimpl; rewrite ?elem_of_cons; intuition.
Qed.

Lemma NoDup_json_of o : NoDup o.*1 -> NoDup (json_of o).*1.
Proof.
  induction o as [|[k0 v0] r IH]; [done|]. csimpl.
  intros [Hk0 Hr]%NoDup_cons.
  assert (k0 ∉ (json_of r).*1) by (intros ?%json_of_keys; done).
  rewrite json_of_cons.
  destruct v0; csimpl; rewrite ?NoDup_cons; auto.
Qed.

Lemma get_json_of o k :
  NoDup o.*1 -> get (json_of o) k = json_value (get o k).
Proof.
  induction o as [|[k0 v0] r IH]; [done|]. csimpl.
  intros [Hk0 Hr]%NoDup_cons. specialize (IH Hr).
  assert (String.eqb k0 k = true -> get (json_of r) k = JUndefined) as Hgone.
  { intros ->%String.eqb_eq. apply get_absent.
    intros ?%json_of_keys. done. }
  rewrite json_of_cons.
  destruct (String.eqb k0 k) eqn:E, v0; simpl; rewrite ?E; auto.
Qed.

Lemma json_of_idemp o : json_of (json_of o) = json_of o.
Proof.
  induction o as [|[k0 v0] r IH]; [done|].
  rewrite json_of_cons.
  destruct v0; rewrite ?json_of_cons; by rewrite ?IH.
Qed.

End objects.

(* ===================================================================== *)
(** ** Keys *)
(* ===================================================================== *)
Section keys.

Lemma makeKey_property propertyId :
  Property.makeKey [JStr propertyId] = propertyId.
Proof. reflexivity. Qed.

Lemma append_inj_l (s a b : string) : s ++ a = s ++ b -> a = b.
Proof. induction s as [|c s IH]; simpl; [done|]. intros [=]. auto. Qed.

Lemma append_NUL_inj (a b : string) : a ++ NUL = b ++ NUL -> a = b.
Proof.
  revert b. induction a as [|c a IH]; intros [|d b]; simpl; try done.
  - intros [= <- H]. by destruct b.
  - intros [= -> H]. by destruct a.
  - intros [= -> H]. f_equal. auto.
Qed.

(** Two strings address the same record of a list only when equal. *)
Lemma createCompositeKey_inj objectType (a b : string) :
  createCompositeKey objectType [JStr a]
  = createCompositeKey objectType [JStr b] -> a = b.
Proof.
  unfold createCompositeKey. simpl.
  intros H%append_inj_l. by apply append_NUL_inj.
Qed.

(** The two lists never share a ledger key. *)
Lemma user_property_keys_differ (a b : jsval) :
  createCompositeKey UserList.name [a]
  ≠ createCompositeKey PropertyList.name [b].
Proof. unfold createCompositeKey. cbn. discriminate. Qed.

End keys.

(* ===================================================================== *)
(** ** Model objects and the lists *)
(* ===================================================================== *)
Section records.
Implicit Types (w : gmap string buffer) (tr : list event) (o : jsobj).

Lemma NoDup_User_new o : NoDup (User.new o).*1.
Proof. apply NoDup_assign, NoDup_singleton. Qed.

Lemma NoDup_Property_new o : NoDup (Property.new o).*1.
Proof. apply NoDup_assign, NoDup_singleton. Qed.

(** The constructor keeps every field of its argument but [key]. *)
Lemma get_User_new o k :
  NoDup o.*1 -> k ≠ "key" -> get (User.new o) k = get o k.
Proof.
  intros Hnd Hk. unfold User.new. rewrite get_assign by done.
  destruct (has o k) eqn:E; [done|].
  apply has_false in E. rewrite (get_absent o k) by done.
  cbn [get]. rewrite eqb_neq; [done|congruence].
Qed.

Lemma get_Property_new o k :
  NoDup o.*1 -> k ≠ "key" -> get (Property.new o) k = get o k.
Proof.
  intros Hnd Hk. unfold Property.new. rewrite get_assign by done.
  destruct (has o k) eqn:E; [done|].
  apply has_false in E. rewrite (get_absent o k) by done.
  cbn [get]. rewrite eqb_neq; [done|congruence].
Qed.

(** A [key] the argument carries replaces the computed one. *)
Lemma getKey_User_new o :
  NoDup o.*1 ->
  User.getKey (User.new o)
  = if has o "key" then get o "key"
    else JStr (User.makeKey [get o "name"; get o "aadhar"]).
Proof. intros Hnd. unfold User.getKey, User.new. by rewrite get_assign. Qed.

Lemma getKey_Property_new o :
  NoDup o.*1 ->
  Property.getKey (Property.new o)
  = if has o "key" then get o "key"
    else JStr (Property.makeKey [get o "propertyId"]).
Proof.
  intros Hnd. unfold Property.getKey, Property.new. by rewrite get_assign.
Qed.

(** An object that begins with its [key] is its own instance. *)
Lemma User_new_keyed c v o :
  NoDup (("key", v) :: o).*1 ->
  assign [("key", c)] (("key", v) :: o) = ("key", v) :: o.
Proof.
  intros Hnd. change (assign [("key", v)] o = ("key", v) :: o).
  by rewrite assign_fresh.
Qed.

Lemma stored_user_NoDup w key user :
  stored_user w key = Some user -> NoDup user.*1.
Proof.
  unfold stored_user, User.fromBuffer.
  destruct (parse _); simpl; [done|]. intros [= <-]. apply NoDup_User_new.
Qed.

Lemma stored_property_NoDup w key property :
  stored_property w key = Some property -> NoDup property.*1.
Proof.
  unfold stored_property, Property.fromBuffer.
  destruct (parse _); simpl; [done|]. intros [= <-].
  apply NoDup_Property_new.
Qed.

(** Reading back what [updateUser] wrote. *)
Lemma stored_user_insert w key user :
  stored_user
    (<[createCompositeKey UserList.name [key] := User.toBuffer user]> w) key
  = Some (User.new (assign [] (json_of user))).
Proof. unfold stored_user. by rewrite lookup_insert_eq. Qed.

Lemma stored_property_insert w key property :
  stored_property
    (<[createCompositeKey PropertyList.name [JStr key]
       := Property.toBuffer property]> w) key
  = Some (Property.new (assign [] (json_of property))).
Proof. unfold stored_property. by rewrite lookup_insert_eq. Qed.

Lemma stored_user_insert_other w ck b key :
  ck ≠ createCompositeKey UserList.name [key] ->
  stored_user (<[ck := b]> w) key = stored_user w key.
Proof. intros. unfold stored_user. by rewrite lookup_insert_ne. Qed.

Lemma stored_property_insert_other w ck b key :
  ck ≠ createCompositeKey PropertyList.name [JStr key] ->
  stored_property (<[ck := b]> w) key = stored_property w key.
Proof. intros. unfold stored_property. by rewrite lookup_insert_ne. Qed.

(** A field read back through the JSON text. *)
Lemma get_reread_user user k :
  NoDup user.*1 -> k ≠ "key" ->
  get (User.new (assign [] (json_of user))) k = json_value (get user k).
Proof.
  intros Hnd Hk. pose proof (NoDup_json_of _ Hnd).
  rewrite parse_assign_id, get_User_new, get_json_of; done.
Qed.

Lemma get_reread_property property k :
  NoDup property.*1 -> k ≠ "key" ->
  get (Property.new (assign [] (json_of property))) k
  = json_value (get property k).
Proof.
  intros Hnd Hk. pose proof (NoDup_json_of _ Hnd).
  rewrite parse_assign_id, get_Property_new, get_json_of; done.
Qed.

(** The fetches of the contracts, as one step of the monad. *)
Lemma bind_getUser {B} key (k : option jsobj -> Inv B) w tr :
  bind (catch_log (UserList.getUser key)) k w tr
  = k (stored_user w key) w
      (tr ++ [Get (createCompositeKey UserList.name [key])])%list.
Proof.
  unfold bind, catch_log, UserList.getUser, bind, getState, lift,
    stored_user.
  by destruct (User.fromBuffer _).
Qed.

Lemma bind_getProperty {B} key (k : option jsobj -> Inv B) w tr :
  bind (catch_log (PropertyList.getProperty key)) k w tr
  = k (stored_property w key) w
      (tr ++ [Get (createCompositeKey PropertyList.name [JStr key])])%list.
Proof.
  unfold bind, catch_log, PropertyList.getProperty, bind, getState, lift,
    stored_property.
  by destruct (Property.fromBuffer _).
Qed.

Lemma bind_getState {B} key (k : buffer -> Inv B) w tr :
  bind (getState key) k w tr
  = k (default BufEmpty (w !! key)) w (tr ++ [Get key])%list.
Proof. reflexivity. Qed.

Lemma bind_putState {B} key value (k : unit -> Inv B) w tr :
  bind (putState key value) k w tr = k tt w (tr ++ [Put key value])%list.
Proof. reflexivity. Qed.

(** A record is there for the raw reads of the contracts exactly when
    it is there for the lists. *)
Lemma stored_user_parse w key :
  stored_user w key
  = User.new <$> try_undefined
      (parse (default BufEmpty
                (w !! createCompositeKey UserList.name [key]))).
Proof. unfold stored_user, User.fromBuffer. by destruct (parse _). Qed.

Lemma stored_property_parse w key :
  stored_property w key
  = Property.new <$> try_undefined
      (parse (default BufEmpty
                (w !! createCompositeKey PropertyList.name [JStr key]))).
Proof.
  unfold stored_property, Property.fromBuffer. by destruct (parse _).
Qed.

Lemma invoke_returned {A} (m : Inv A) w a tr :
  run m w = (Returned a, tr) -> invoke m w = (Returned a, commit tr w).
Proof. unfold run, invoke. by intros ->. Qed.

Lemma invoke_thrown {A} (m : Inv A) w e tr :
  run m w = (Thrown e, tr) -> invoke m w = (Thrown e, w).
Proof. unfold run, invoke. by intros ->. Qed.

(** The ledger and the trace of a run, left as they are computed. *)
Lemma invoke_eta {A} (m : Inv A) w r :
  (invoke m w).1 = r -> invoke m w = (r, (invoke m w).2).
Proof. destruct (invoke m w). simpl. by intros ->. Qed.

Lemma run_eta {A} (m : Inv A) w r :
  (run m w).1 = r -> run m w = (r, (run m w).2).
Proof. destruct (run m w). simpl. by intros ->. Qed.

Lemma parse_NoDup b o : parse b = inr o -> NoDup o.*1.
Proof.
  destruct b; simpl; try done. intros [= <-].
  apply NoDup_assign, NoDup_nil_2.
Qed.

End records.

(* ===================================================================== *)
(** ** Sums of safe integers *)
(* ===================================================================== *)
Section numbers.

Lemma round_double_safe z : safe z -> round_double z = z.
Proof.
  intros [Hlo Hhi]. unfold round_double.
  assert ((Z.abs z <? 2 ^ 53) = true) as ->; [|done].
  apply Z.ltb_lt. lia.
Qed.

Lemma add_safe n m : safe (n + m) -> add (JNum n) (JNum m) = JNum (n + m).
Proof. intros H. unfold add. simpl. by rewrite round_double_safe. Qed.

Lemma sub_safe n m : safe (n - m) -> sub (JNum n) (JNum m) = JNum (n - m).
Proof. intros H. unfold sub. simpl. by rewrite round_double_safe. Qed.

End numbers.

(* ===================================================================== *)
(** ** purchaseProperty *)
(* ===================================================================== *)
(** A closed equation, by evaluation; the ledger and the trace a run
    leaves are named, not written out. *)
Ltac evaluate :=
  lazymatch goal with
  | |- invoke _ _ = (_, _) => apply invoke_eta
  | |- run _ _ = (_, ?tr) => tryif is_evar tr then apply run_eta else idtac
  | |- _ => idtac
  end;
  vm_compute; first [reflexivity | discriminate].

Section purchase.
Implicit Types (w : gmap string buffer) (user property : jsobj).

(** What a run of [purchaseProperty] does, case by case. *)
Lemma purchaseProperty_run ctx name aadhar propertyId w :
  let userKey := User.makeKey [JStr name; JStr aadhar] in
  let reads :=
    [ Get (createCompositeKey UserList.name [JStr userKey]);
      Get (createCompositeKey PropertyList.name [JStr propertyId]) ] in
  run (UserContract.purchaseProperty ctx name aadhar propertyId) w =
  match stored_user w (JStr userKey), stored_property w propertyId with
  | Some user, Some property =>
      let price := get property "price" in
      if eq_str (get property "status") "onSale" then
        if ge (get user "upgradCoins") price then
          let oldOwnerKey := createCompositeKey UserList.name
                               [get property "owner"] in
          match stored_user w (get property "owner") with
          | Some oldOwner =>
              (Returned tt,
               reads ++
               [ Get oldOwnerKey;
                 Put (createCompositeKey PropertyList.name
                        [Property.getKey property])
                     (Property.toBuffer (sold property userKey));
                 Put (createCompositeKey UserList.name [User.getKey user])
                     (User.toBuffer (debited user price));
                 Put (createCompositeKey UserList.name
                        [User.getKey oldOwner])
                     (User.toBuffer (credited oldOwner price)) ])%list
          | None => (Thrown TypeError, reads ++ [Get oldOwnerKey])%list
          end
        else
          (Thrown (Error
             ("There are no sufficient funds for the user with name "
              ++ name ++ " and aadhar " ++ aadhar
              ++ " to purchase this property")), reads)
      else
        (Thrown (Error ("The property with propertyId " ++ propertyId
                        ++ " is not onSale")), reads)
  | _, _ =>
      (Thrown (Error ("There is no user with name " ++ name ++ " and aadhar "
                      ++ aadhar ++ " exists " ++ String "010" " OR "
                      ++ String "010"
                           " There is no registered property with propertyId "
                      ++ propertyId ++ " exists")), reads)
  end.
Proof.
  intros userKey reads. unfold run, UserContract.purchaseProperty.
  rewrite bind_getUser, bind_getProperty, makeKey_property. fold userKey.
  destruct (stored_user w (JStr userKey)) as [user|],
    (stored_property w propertyId) as [property|]; try reflexivity.
  change UserContract.ON_SALE with "onSale".
  destruct (eq_str (get property "status") "onSale"); [|reflexivity].
  destruct (ge _ _) eqn:Hge; [|reflexivity].
  rewrite bind_getUser.
  destruct (stored_user w (get property "owner")) as [oldOwner|];
    [|reflexivity].
  unfold PropertyList.updateProperty, UserList.updateUser.
  rewrite !bind_putState. unfold putState, sold, debited, credited,
    User.getKey, Property.getKey.
  rewrite !get_set_ne by done. reflexivity.
Qed.

(** C8, as the code has it. purchaseProperty does not ask the buyer to
    differ from the owner: an owner who buys their own property on sale,
    with balance b and price p stored as numbers, p <= b, and b - p and
    b + p safe integers, succeeds; the debited record and then the credited
    record are written under the same ledger key, so the stored balance
    ends at b + p. *)
Theorem purchase_own_property ctx name aadhar propertyId w user property
    (b p : Z) :
  stored_user w (JStr (User.makeKey [JStr name; JStr aadhar])) = Some user ->
  stored_property w propertyId = Some property ->
  User.getKey user = JStr (User.makeKey [JStr name; JStr aadhar]) ->
  get property "owner" = JStr (User.makeKey [JStr name; JStr aadhar]) ->
  get property "status" = JStr "onSale" ->
  get user "upgradCoins" = JNum b ->
  get property "price" = JNum p ->
  p <= b ->
  safe (b - p) ->
  safe (b + p) ->
  let userKey := User.makeKey [JStr name; JStr aadhar] in
  let userCompositeKey := createCompositeKey UserList.name [JStr userKey] in
  exists w' propertyCompositeKey propertyBuffer,
    run (UserContract.purchaseProperty ctx name aadhar propertyId) w
    = (Returned tt,
       [ Get userCompositeKey;
         Get (createCompositeKey PropertyList.name [JStr propertyId]);
         Get userCompositeKey;
         Put propertyCompositeKey propertyBuffer;
         Put userCompositeKey
             (User.toBuffer (set user "upgradCoins" (JNum (b - p))));
         Put userCompositeKey
             (User.toBuffer (set user "upgradCoins" (JNum (b + p)))) ]) /\
    invoke (UserContract.purchaseProperty ctx name aadhar propertyId) w
    = (Returned tt, w') /\
    balance w' userKey = JNum (b + p).
Proof.
  intros Huser Hprop Hkey Howner Hstatus Hb Hp Hle Hsub Hadd
    userKey userCompositeKey.
  fold userKey in Huser, Hkey, Howner.
  assert (run (UserContract.purchaseProperty ctx name aadhar propertyId) w
    = (Returned tt,
       [ Get userCompositeKey;
         Get (createCompositeKey PropertyList.name [JStr propertyId]);
         Get userCompositeKey;
         Put (createCompositeKey PropertyList.name
                [Property.getKey
                   (set (set property "status" (JStr "registered"))
                        "owner" (JStr userKey))])
             (Property.toBuffer
                (set (set property "status" (JStr "registered"))
                     "owner" (JStr userKey)));
         Put userCompositeKey
             (User.toBuffer (set user "upgradCoins" (JNum (b - p))));
         Put userCompositeKey
             (User.toBuffer (set user "upgradCoins" (JNum (b + p)))) ]))
    as Hrun.
  { unfold run, UserContract.purchaseProperty.
    rewrite bind_getUser, bind_getProperty, makeKey_property.
    fold userKey. rewrite Huser, Hprop, Hstatus. cbn [eq_str].
    change ("onSale" =? UserContract.ON_SALE)%string with true. cbv iota.
    rewrite get_set_ne, Hb, Hp by done.
    unfold ge. cbn [is_stringy to_number andb].
    apply Z.leb_le in Hle as ->.
    rewrite bind_getUser, Howner, Huser.
    unfold PropertyList.updateProperty, UserList.updateUser.
    rewrite !bind_putState. unfold putState, User.getKey.
    rewrite !get_set_ne by done. fold (User.getKey user).
    rewrite Hkey, Hb, sub_safe, add_safe by done. reflexivity. }
  eexists _, _, _. split; [exact Hrun|].
  split; [by apply invoke_returned|].
  unfold balance, commit. cbn [fold_left apply_event].
  unfold userCompositeKey.
  rewrite stored_user_insert.
  rewrite get_reread_user, get_set_eq; [done| |done].
  apply NoDup_set. by eapply stored_user_NoDup.
Qed.

End purchase.

Lemma purchase_own_property_witness :
  exists w',
    invoke (UserContract.purchaseProperty Scenario.asUser "alice" "1" "P1")
           Scenario.w_onsale = (Returned tt, w') /\
    balance Scenario.w_onsale "alice:1" = JNum 500 /\
    balance w' "alice:1" = JNum 540.
Proof.
  destruct (purchase_own_property Scenario.asUser "alice" "1" "P1"
              Scenario.w_onsale Scenario.alice Scenario.P1 500 40)
    as (w' & _ & _ & _ & Hinv & Hbal);
    [vm_compute; reflexivity ..| lia | split; reflexivity
    | split; reflexivity |].
  exists w'. split; [exact Hinv|]. split; [vm_compute; reflexivity|exact Hbal].
Defined.

(** C8 as stated fails when the price is stored as the text a client
    sent: bob, with 500 coins, buys his own property P3, on sale at "40";
    the call returns and his stored balance is the text "50040", not the
    number 540. *)
Lemma own_purchase_at_text_price :
  let w := Scenario.w_text_price in
  exists property w',
    stored_property w "P3" = Some property /\
    get property "owner" = JStr (User.makeKey [JStr "bob"; JStr "2"]) /\
    get property "status" = JStr "onSale" /\
    get property "price" = JStr "40" /\
    balance w "bob:2" = JNum 500 /\
    ge (balance w "bob:2") (get property "price") = true /\
    invoke (UserContract.purchaseProperty Scenario.asUser "bob" "2" "P3") w
    = (Returned tt, w') /\
    balance w' "bob:2" = JStr "50040" /\
    balance w' "bob:2" <> JNum (500 + 40).
Proof.
  eexists _, _. split; [evaluate|]. split; [evaluate|]. split; [evaluate|].
  split; [evaluate|]. split; [evaluate|]. split; [evaluate|].
  split; [evaluate|]. split; evaluate.
Qed.

Section after_purchase.
Implicit Types (w : gmap string buffer) (user property : jsobj).

(** Writing a JSON text under any key leaves every readable user
    readable. *)
Lemma stored_user_insert_is_Some w ck o key :
  is_Some (stored_user w key) ->
  is_Some (stored_user (<[ck := BufJson o]> w) key).
Proof.
  intros Hsome. unfold stored_user in *.
  destruct (decide (ck = createCompositeKey UserList.name [key])) as [->|Hne].
  - rewrite lookup_insert_eq. simpl. eauto.
  - by rewrite lookup_insert_ne.
Qed.

(** A successful run went through the three reads and the three writes. *)
Lemma purchaseProperty_returned ctx name aadhar propertyId w tr :
  run (UserContract.purchaseProperty ctx name aadhar propertyId) w
  = (Returned tt, tr) ->
  let userKey := User.makeKey [JStr name; JStr aadhar] in
  exists user property oldOwner,
    stored_user w (JStr userKey) = Some user /\
    stored_property w propertyId = Some property /\
    stored_user w (get property "owner") = Some oldOwner /\
    get property "status" = JStr "onSale" /\
    ge (get user "upgradCoins") (get property "price") = true /\
    commit tr w =
      <[createCompositeKey UserList.name [User.getKey oldOwner] :=
          User.toBuffer (credited oldOwner (get property "price"))]>
      (<[createCompositeKey UserList.name [User.getKey user] :=
          User.toBuffer (debited user (get property "price"))]>
      (<[createCompositeKey PropertyList.name [Property.getKey property] :=
          Property.toBuffer (sold property userKey)]> w)).
Proof.
  intros Hrun userKey. rewrite purchaseProperty_run in Hrun.
  fold userKey in Hrun.
  destruct (stored_user w (JStr userKey)) as [user|] eqn:Hu; [|done].
  destruct (stored_property w propertyId) as [property|] eqn:Hp; [|done].
  cbv zeta in Hrun.
  destruct (eq_str (get property "status") "onSale") eqn:Hst; [|done].
  destruct (ge _ _) eqn:Hge; [|done].
  destruct (stored_user w (get property "owner")) as [oldOwner|] eqn:Ho;
    [|done].
  injection Hrun as <-. exists user, property, oldOwner.
  split_and!; try done.
  unfold eq_str in Hst. destruct (get property "status"); try done.
  by apply String.eqb_eq in Hst as ->.
Qed.

(** C6. After a successful purchaseProperty the stored property has the
    buyer's name:aadhar key as owner and the status registered, and a
    second purchaseProperty on it right afterwards, by the buyer (whose
    record is still there) or by any other stored user, fails with the
    "is not onSale" error and writes nothing. *)
Theorem purchase_transfers_property ctx name aadhar propertyId w w' property :
  stored_property w propertyId = Some property ->
  Property.getKey property = JStr propertyId ->
  invoke (UserContract.purchaseProperty ctx name aadhar propertyId) w
  = (Returned tt, w') ->
  let userKey := User.makeKey [JStr name; JStr aadhar] in
  (exists property',
     stored_property w' propertyId = Some property' /\
     get property' "owner" = JStr userKey /\
     get property' "status" = JStr "registered") /\
  is_Some (stored_user w' (JStr userKey)) /\
  (forall ctx2 name2 aadhar2,
     is_Some
       (stored_user w' (JStr (User.makeKey [JStr name2; JStr aadhar2]))) ->
     exists tr,
       run (UserContract.purchaseProperty ctx2 name2 aadhar2 propertyId) w'
       = (Thrown (Error ("The property with propertyId " ++ propertyId
                         ++ " is not onSale")), tr) /\
       no_put tr = true).
Proof.
  intros Hprop Hkey Hinv userKey.
  destruct (run (UserContract.purchaseProperty ctx name aadhar propertyId) w)
    as [[[]|e] tr] eqn:Hrun.
  2: { rewrite (invoke_thrown _ _ _ _ Hrun) in Hinv. done. }
  rewrite (invoke_returned _ _ _ _ Hrun) in Hinv. injection Hinv as Hw'.
  apply purchaseProperty_returned in Hrun
    as (user & property0 & oldOwner & Hu & Hp & Ho & Hst & Hge & Hcommit).
  fold userKey in Hu, Hcommit. rewrite Hprop in Hp. injection Hp as <-.
  rewrite Hcommit, Hkey in Hw'. clear Hcommit.
  pose proof (stored_property_NoDup _ _ _ Hprop) as Hnd.
  assert (NoDup (sold property userKey).*1) as Hnd'
    by (unfold sold; by do 2 apply NoDup_set).
  assert (stored_property w' propertyId
          = Some (Property.new (assign [] (json_of (sold property userKey)))))
    as Hprop'.
  { subst w'. rewrite !stored_property_insert_other
      by apply user_property_keys_differ.
    apply stored_property_insert. }
  assert (get (Property.new (assign [] (json_of (sold property userKey))))
              "status" = JStr "registered") as Hst'.
  { rewrite get_reread_property by done. unfold sold.
    by rewrite get_set_ne, get_set_eq. }
  split; [|split].
  - eexists. split; [exact Hprop'|]. split; [|exact Hst'].
    rewrite get_reread_property by done. unfold sold.
    by rewrite get_set_eq.
  - subst w'. unfold User.toBuffer, Property.toBuffer, stringify.
    do 3 apply stored_user_insert_is_Some. by rewrite Hu.
  - intros ctx2 name2 aadhar2 [user2 Hu2].
    rewrite purchaseProperty_run, Hu2, Hprop'. cbv zeta. rewrite Hst'.
    eexists. split; reflexivity.
Qed.

End after_purchase.

Lemma purchase_transfers_property_witness :
  exists w' property',
    invoke (UserContract.purchaseProperty Scenario.asUser "bob" "2" "P1")
           Scenario.w_onsale = (Returned tt, w') /\
    stored_property w' "P1" = Some property' /\
    get property' "owner" = JStr "bob:2" /\
    get property' "status" = JStr "registered".
Proof.
  exists (Scenario.after
            (UserContract.purchaseProperty Scenario.asUser "bob" "2" "P1")
            Scenario.w_onsale).
  destruct (purchase_transfers_property Scenario.asUser "bob" "2" "P1"
              Scenario.w_onsale
              (Scenario.after
                 (UserContract.purchaseProperty Scenario.asUser "bob" "2" "P1")
                 Scenario.w_onsale)
              Scenario.P1)
    as ((property' & H1 & H2 & H3) & _ & _); [evaluate ..|].
  exists property'. split; [evaluate|]. auto.
Defined.

Section conservation.
Implicit Types (w : gmap string buffer) (user property oldOwner : jsobj).

(** X15. Between two different users, with balances b and s and price p
    stored as numbers, p <= b, and b, s, p, b - p and s + p safe integers,
    a purchase moves the price from the buyer's stored balance to the
    seller's. *)
Lemma purchase_between_two_users ctx name aadhar propertyId w
    user property oldOwner (ownerKey : string) (b s p : Z) :
  let userKey := User.makeKey [JStr name; JStr aadhar] in
  stored_user w (JStr userKey) = Some user ->
  stored_property w propertyId = Some property ->
  get property "owner" = JStr ownerKey ->
  stored_user w (JStr ownerKey) = Some oldOwner ->
  User.getKey user = JStr userKey ->
  User.getKey oldOwner = JStr ownerKey ->
  userKey <> ownerKey ->
  get property "status" = JStr "onSale" ->
  get user "upgradCoins" = JNum b ->
  get oldOwner "upgradCoins" = JNum s ->
  get property "price" = JNum p ->
  p <= b ->
  safe b -> safe s -> safe p ->
  safe (b - p) ->
  safe (s + p) ->
  exists w',
    invoke (UserContract.purchaseProperty ctx name aadhar propertyId) w
    = (Returned tt, w') /\
    balance w' userKey = JNum (b - p) /\
    balance w' ownerKey = JNum (s + p).
Proof.
  intros userKey Hu Hp Howner Ho Hku Hko Hne Hst Hb Hs Hprice Hle
    _ _ _ Hsub Hadd.
  pose proof (purchaseProperty_run ctx name aadhar propertyId w) as Hrun.
  cbv zeta in Hrun. fold userKey in Hrun.
  rewrite Hu, Hp, Hst, Hb, Hprice, Howner, Ho, Hku, Hko in Hrun.
  unfold ge in Hrun. cbn [eq_str is_stringy to_number andb] in Hrun.
  change ("onSale" =? "onSale")%string with true in Hrun.
  apply Z.leb_le in Hle. rewrite Hle in Hrun. cbv iota in Hrun.
  eexists. split; [by apply invoke_returned|].
  unfold commit. cbn [fold_left apply_event app].
  pose proof (stored_user_NoDup _ _ _ Hu) as Hndu.
  pose proof (stored_user_NoDup _ _ _ Ho) as Hndo.
  unfold balance. split.
  - rewrite stored_user_insert_other, stored_user_insert.
    + unfold debited.
      rewrite get_reread_user by (done || by apply NoDup_set).
      by rewrite get_set_eq, Hb, sub_safe.
    + intros Heq%createCompositeKey_inj. done.
  - rewrite stored_user_insert.
    unfold credited. rewrite get_reread_user by (done || by apply NoDup_set).
    by rewrite get_set_eq, Hs, add_safe.
Qed.

(** C1. The total over buyer and seller is not conserved when the buyer
    is the seller: alice, with 500 coins, buys her own property P1 on sale
    at 40; the transaction returns and her stored balance is 540, so the
    sum over buyer and seller goes from 500 + 500 to 540 + 540. *)
Theorem purchase_from_oneself_mints_coins :
  let w := Scenario.w_onsale in
  let buyerKey := User.makeKey [JStr "alice"; JStr "1"] in
  exists w' property sellerKey,
    invoke (UserContract.purchaseProperty Scenario.asUser "alice" "1" "P1") w
    = (Returned tt, w') /\
    stored_property w "P1" = Some property /\
    get property "owner" = JStr sellerKey /\
    sellerKey = buyerKey /\
    add (balance w buyerKey) (balance w sellerKey) = JNum 1000 /\
    add (balance w' buyerKey) (balance w' sellerKey) = JNum 1080.
Proof.
  eexists _, _, _. split; [evaluate|].
  split; [evaluate|]. split; [evaluate|].
  split; [reflexivity|]. split; evaluate.
Qed.

End conservation.

Lemma purchase_between_two_users_example :
  exists w',
    invoke (UserContract.purchaseProperty Scenario.asUser "bob" "2" "P1")
           Scenario.w_onsale = (Returned tt, w') /\
    balance w' "bob:2" = JNum 460 /\ balance w' "alice:1" = JNum 540.
Proof.
  apply (purchase_between_two_users Scenario.asUser "bob" "2" "P1"
           Scenario.w_onsale Scenario.bob Scenario.P1 Scenario.alice
           "alice:1" 500 500 40);
    try (vm_compute; reflexivity);
    [discriminate | lia | split; reflexivity ..].
Defined.

(* ===================================================================== *)
(** ** Failures write nothing *)
(* ===================================================================== *)
(** One step of a run: a fetch, a write, or a case of a test. *)
Ltac run_step :=
  first
    [ progress cbv beta zeta
    | rewrite bind_getUser
    | rewrite bind_getProperty
    | rewrite bind_getState
    | rewrite bind_putState
    | match goal with
      | |- context [if ?c then _ else _] => destruct c eqn:?
      | |- context [match ?x with Some _ => _ | None => _ end] =>
          destruct x eqn:?
      end ].

Section failures.
Implicit Types (w : gmap string buffer) (tr : list event).

Ltac thrown_before_put :=
  unfold run; repeat run_step;
  unfold throw, ret, putState, PropertyList.updateProperty,
    PropertyList.addProperty, UserList.updateUser, UserList.addUser;
  intros H; first [discriminate H | injection H as <- <-; reflexivity].

Lemma requestNewUser_thrown ctx name email phone aadhar w e tr :
  run (UserContract.requestNewUser ctx name email phone aadhar) w
  = (Thrown e, tr) -> no_put tr = true.
Proof. unfold UserContract.requestNewUser. thrown_before_put. Qed.

Lemma rechargeAccount_thrown ctx name aadhar transactionID w e tr :
  run (UserContract.rechargeAccount ctx name aadhar transactionID) w
  = (Thrown e, tr) -> no_put tr = true.
Proof. unfold UserContract.rechargeAccount. thrown_before_put. Qed.

Lemma propertyRegistrationRequest_thrown ctx name aadhar propertyId price
    w e tr :
  run (UserContract.propertyRegistrationRequest
         ctx name aadhar propertyId price) w
  = (Thrown e, tr) -> no_put tr = true.
Proof. unfold UserContract.propertyRegistrationRequest. thrown_before_put. Qed.

Lemma updateProperty_thrown ctx name aadhar propertyId status w e tr :
  run (UserContract.updateProperty ctx name aadhar propertyId status) w
  = (Thrown e, tr) -> no_put tr = true.
Proof. unfold UserContract.updateProperty. thrown_before_put. Qed.

Lemma purchaseProperty_thrown ctx name aadhar propertyId w e tr :
  run (UserContract.purchaseProperty ctx name aadhar propertyId) w
  = (Thrown e, tr) -> no_put tr = true.
Proof.
  rewrite purchaseProperty_run. cbv zeta.
  repeat run_step; intros H;
    first [discriminate H | injection H as <- <-; reflexivity].
Qed.

Lemma approveNewUserRequest_thrown ctx name aadhar w e tr :
  run (RegistrarContract.approveNewUserRequest ctx name aadhar) w
  = (Thrown e, tr) -> no_put tr = true.
Proof. unfold RegistrarContract.approveNewUserRequest. thrown_before_put. Qed.

Lemma approvePropertyRegistrationRequest_thrown ctx propertyId w e tr :
  run (RegistrarContract.approvePropertyRegistrationRequest ctx propertyId) w
  = (Thrown e, tr) -> no_put tr = true.
Proof.
  unfold RegistrarContract.approvePropertyRegistrationRequest.
  thrown_before_put.
Qed.

Lemma bind_ret_thrown {A B} (m : Inv A) (f : A -> B) w e tr :
  run (bind m (fun r => ret (f r))) w = (Thrown e, tr) ->
  run m w = (Thrown e, tr).
Proof.
  unfold run, bind, ret.
  destruct (m w []) as [[a|e'] tr']; intros H;
    [discriminate H|by injection H as -> ->].
Qed.

(** Whatever transaction throws has written nothing yet. *)
Lemma dispatch_thrown ctx c w e tr :
  run (dispatch ctx c) w = (Thrown e, tr) -> no_put tr = true.
Proof.
  destruct c; unfold dispatch; intros H%bind_ret_thrown;
    eauto using requestNewUser_thrown, rechargeAccount_thrown,
      propertyRegistrationRequest_thrown, updateProperty_thrown,
      purchaseProperty_thrown, approveNewUserRequest_thrown,
      approvePropertyRegistrationRequest_thrown.
Qed.

(** X27. purchaseProperty throws, with no write, when balance and price
    are stored as numbers, safe integers, and the balance is below the
    price, and whenever the property is not onSale; and every transaction
    that writes either returns, its writes applied, or throws with no write
    made and the ledger as it was. *)
Theorem failures_write_nothing :
  (forall ctx name aadhar propertyId w user property (b p : Z),
     stored_user w (JStr (User.makeKey [JStr name; JStr aadhar])) = Some user ->
     stored_property w propertyId = Some property ->
     get user "upgradCoins" = JNum b ->
     get property "price" = JNum p ->
     safe b -> safe p ->
     b < p ->
     exists msg tr,
       run (UserContract.purchaseProperty ctx name aadhar propertyId) w
       = (Thrown (Error msg), tr) /\
       no_put tr = true /\
       invoke (UserContract.purchaseProperty ctx name aadhar propertyId) w
       = (Thrown (Error msg), w)) /\
  (forall ctx name aadhar propertyId w property,
     stored_property w propertyId = Some property ->
     get property "status" <> JStr "onSale" ->
     exists msg tr,
       run (UserContract.purchaseProperty ctx name aadhar propertyId) w
       = (Thrown (Error msg), tr) /\
       no_put tr = true /\
       invoke (UserContract.purchaseProperty ctx name aadhar propertyId) w
       = (Thrown (Error msg), w)) /\
  (forall ctx c w,
     (exists r tr,
        run (dispatch ctx c) w = (Returned r, tr) /\
        invoke (dispatch ctx c) w = (Returned r, commit tr w)) \/
     (exists e tr,
        run (dispatch ctx c) w = (Thrown e, tr) /\
        no_put tr = true /\
        invoke (dispatch ctx c) w = (Thrown e, w))).
Proof.
  split_and!.
  - intros ctx name aadhar propertyId w user property b p Hu Hp Hb Hprice
      _ _ Hlt.
    pose proof (purchaseProperty_run ctx name aadhar propertyId w) as Hrun.
    cbv zeta in Hrun. rewrite Hu, Hp, Hb, Hprice in Hrun.
    assert (ge (JNum b) (JNum p) = false) as Hge
      by (unfold ge; simpl; apply Z.leb_gt; lia).
    rewrite Hge in Hrun.
    destruct (eq_str (get property "status") "onSale");
      eexists _, _; (split; [exact Hrun|]);
      (split; [reflexivity|by eapply invoke_thrown]).
  - intros ctx name aadhar propertyId w property Hp Hst.
    pose proof (purchaseProperty_run ctx name aadhar propertyId w) as Hrun.
    cbv zeta in Hrun. rewrite Hp in Hrun.
    assert (eq_str (get property "status") "onSale" = false) as Heq.
    { unfold eq_str. destruct (get property "status") as [| | | |s|]; try done.
      apply eqb_neq. congruence. }
    rewrite Heq in Hrun.
    destruct (stored_user w _);
      eexists _, _; (split; [exact Hrun|]);
      (split; [reflexivity|by eapply invoke_thrown]).
  - intros ctx c w.
    destruct (run (dispatch ctx c) w) as [[r|e] tr] eqn:Hrun.
    + left. exists r, tr. split; [done|]. by apply invoke_returned.
    + right. exists e, tr. split; [done|].
      split; [by eapply dispatch_thrown|by eapply invoke_thrown].
Qed.

End failures.

Lemma failures_write_nothing_witness :
  exists msg tr,
    run (UserContract.purchaseProperty Scenario.asUser "dave" "4" "P1")
        Scenario.w_newcomer
    = (Thrown (Error msg), tr) /\ no_put tr = true.
Proof.
  destruct failures_write_nothing as (Hfunds & _ & _).
  destruct (Hfunds Scenario.asUser "dave" "4" "P1" Scenario.w_newcomer
              Scenario.dave Scenario.P1 0 40)
    as (msg & tr & Hrun & Hno & _);
    [vm_compute; reflexivity ..| split; reflexivity | split; reflexivity
    | lia |].
  exists msg, tr. auto.
Defined.

(* ===================================================================== *)
(** ** The authorization checks *)
(* ===================================================================== *)
Section gates.
Implicit Types (w : gmap string buffer) (tr : list event).

Lemma msp_mismatch ctx msp :
  getMSPID ctx <> msp -> negb (String.eqb (getMSPID ctx) msp) = true.
Proof. intros H. by rewrite eqb_neq. Qed.

(** A run that throws before any event is a refusal. *)
Lemma refused_first {A} (m : Inv A) w msg :
  run m w = (Thrown (Error msg), []) -> refused m w msg.
Proof. intros Hrun. split; [done|by eapply invoke_thrown]. Qed.

(** C2, as the code has it. requestNewUser, rechargeAccount and
    propertyRegistrationRequest (usersMSP), approveNewUserRequest and
    approvePropertyRegistrationRequest (registrarMSP): a principal of
    another MSP gets the transaction's own authorization error before any
    ledger read or write, and the ledger stays as it was.  updateProperty
    checks no MSP: it reads the property and then refuses, with no write, a
    caller whose name:aadhar key is not the stored owner. *)
Theorem authorization_gates :
  (forall ctx name email phone aadhar w,
     getMSPID ctx <> "usersMSP" ->
     refused (UserContract.requestNewUser ctx name email phone aadhar) w
       "Only users should be allowed to raise a new user request") /\
  (forall ctx name aadhar transactionID w,
     getMSPID ctx <> "usersMSP" ->
     refused (UserContract.rechargeAccount ctx name aadhar transactionID) w
       "Only users should be allowed to recharge accounts") /\
  (forall ctx name aadhar propertyId price w,
     getMSPID ctx <> "usersMSP" ->
     refused (UserContract.propertyRegistrationRequest
                ctx name aadhar propertyId price) w
       "Only users should be used to raise property registration request") /\
  (forall ctx name aadhar w,
     getMSPID ctx <> "registrarMSP" ->
     refused (RegistrarContract.approveNewUserRequest ctx name aadhar) w
       "Registrar's can only approve new user request") /\
  (forall ctx propertyId w,
     getMSPID ctx <> "registrarMSP" ->
     refused (RegistrarContract.approvePropertyRegistrationRequest
                ctx propertyId) w
       "Registrar's can only approve property registration request") /\
  (forall ctx name aadhar propertyId status w property,
     stored_property w propertyId = Some property ->
     get property "owner" <> JStr (User.makeKey [JStr name; JStr aadhar]) ->
     run (UserContract.updateProperty ctx name aadhar propertyId status) w
     = (Thrown (Error
          "Only authorized users can update the value of this property"),
        [Get (createCompositeKey PropertyList.name [JStr propertyId])]) /\
     invoke (UserContract.updateProperty ctx name aadhar propertyId status) w
     = (Thrown (Error
          "Only authorized users can update the value of this property"),
        w)).
Proof.
  split_and!.
  1-5: intros; apply refused_first;
    unfold run, UserContract.requestNewUser, UserContract.rechargeAccount,
      UserContract.propertyRegistrationRequest,
      RegistrarContract.approveNewUserRequest,
      RegistrarContract.approvePropertyRegistrationRequest;
    by rewrite msp_mismatch.
  intros ctx name aadhar propertyId status w property Hp Howner.
  assert (run (UserContract.updateProperty ctx name aadhar propertyId
                 status) w
          = (Thrown (Error
               "Only authorized users can update the value of this property"),
             [Get (createCompositeKey PropertyList.name [JStr propertyId])]))
    as Hrun.
  { unfold run, UserContract.updateProperty.
    rewrite bind_getProperty, makeKey_property, Hp.
    assert (eq_str (get property "owner")
                   (User.makeKey [JStr name; JStr aadhar]) = false) as ->.
    { unfold eq_str. destruct (get property "owner"); try done.
      apply eqb_neq. congruence. }
    reflexivity. }
  split; [done|by eapply invoke_thrown].
Qed.

(** C2 as stated fails: a principal of registrarMSP, not of the users'
    organisation, runs updateProperty and purchaseProperty to the end, and
    both change stored records. *)
Lemma registrar_principal_updates_and_purchases :
  getMSPID Scenario.asRegistrar <> "usersMSP" /\
  (exists tr w',
     run (UserContract.updateProperty Scenario.asRegistrar
            "alice" "1" "P1" "registered") Scenario.w_onsale
     = (Returned tt, tr) /\
     no_put tr = false /\
     invoke (UserContract.updateProperty Scenario.asRegistrar
               "alice" "1" "P1" "registered") Scenario.w_onsale
     = (Returned tt, w') /\
     stored_property w' "P1" <> stored_property Scenario.w_onsale "P1") /\
  (exists tr w',
     run (UserContract.purchaseProperty Scenario.asRegistrar "bob" "2" "P1")
         Scenario.w_onsale
     = (Returned tt, tr) /\
     no_put tr = false /\
     invoke (UserContract.purchaseProperty Scenario.asRegistrar
               "bob" "2" "P1") Scenario.w_onsale
     = (Returned tt, w') /\
     balance w' "bob:2" <> balance Scenario.w_onsale "bob:2").
Proof.
  split; [discriminate|].
  split; eexists _, _; (split; [evaluate|]); (split; [evaluate|]);
    (split; [evaluate|]); evaluate.
Qed.

End gates.

Lemma authorization_gates_witness :
  refused (UserContract.rechargeAccount Scenario.asRegistrar
             "alice" "1" "upg500") Scenario.w_users
    "Only users should be allowed to recharge accounts" /\
  refused (RegistrarContract.approveNewUserRequest Scenario.asUser
             "alice" "1") Scenario.w_users
    "Registrar's can only approve new user request".
Proof.
  destruct authorization_gates as (_ & Hrecharge & _ & Happrove & _).
  split; [apply Hrecharge | apply Happrove]; discriminate.
Defined.

(* ===================================================================== *)
(** ** Pending users *)
(* ===================================================================== *)
Section pending.
Implicit Types (w : gmap string buffer) (user : jsobj).

Lemma has_set_ne (o : jsobj) k k' v : k <> k' -> has (set o k v) k' = has o k'.
Proof.
  intros Hne. induction o as [|[k0 v0] r IH]; cbn [set].
  - rewrite has_cons, eqb_neq by done. reflexivity.
  - destruct (String.eqb k0 k) eqn:E; rewrite !has_cons; [done|].
    by rewrite IH.
Qed.

(** The list returns a pending record like an approved one, so the
    request of a pending user goes through. *)
Lemma propertyRegistrationRequest_any_user ctx name aadhar propertyId price
    w user :
  getMSPID ctx = "usersMSP" ->
  stored_property w propertyId = None ->
  stored_user w (JStr (User.makeKey [JStr name; JStr aadhar])) = Some user ->
  let propertyObj :=
    [ ("propertyId", JStr propertyId);
      ("owner", JStr (User.makeKey [JStr name; JStr aadhar]));
      ("price", price) ] in
  let propertyCompositeKey :=
    createCompositeKey PropertyList.name [JStr propertyId] in
  run (UserContract.propertyRegistrationRequest
         ctx name aadhar propertyId price) w
  = (Returned propertyObj,
     [ Get propertyCompositeKey;
       Get (createCompositeKey UserList.name
              [JStr (User.makeKey [JStr name; JStr aadhar])]);
       Put propertyCompositeKey (stringify propertyObj) ]).
Proof.
  intros Hmsp Hnone Hu propertyObj propertyCompositeKey.
  unfold run, UserContract.propertyRegistrationRequest.
  rewrite Hmsp. change (negb ("usersMSP" =? "usersMSP")%string) with false.
  cbv iota. rewrite bind_getState, makeKey_property.
  rewrite stored_property_parse in Hnone.
  change UserContract.property_prefix with PropertyList.name.
  destruct (try_undefined (parse _)); [done|].
  rewrite bind_getUser, Hu. reflexivity.
Qed.

(** C3. The claim fails on a pending owner: carol has a record under her
    name:aadhar key without a balance field, P2 has no record, and her
    propertyRegistrationRequest returns and writes the pending property. *)
Theorem pending_user_registers_property :
  let w := Scenario.w_pending in
  stored_property w "P2" = None /\
  stored_user w (JStr "carol:3") = Some Scenario.carol /\
  has Scenario.carol "upgradCoins" = false /\
  exists propertyObj tr w' property,
    run (UserContract.propertyRegistrationRequest Scenario.asUser
           "carol" "3" "P2" (JNum 10)) w
    = (Returned propertyObj, tr) /\
    no_put tr = false /\
    invoke (UserContract.propertyRegistrationRequest Scenario.asUser
              "carol" "3" "P2" (JNum 10)) w
    = (Returned propertyObj, w') /\
    stored_property w' "P2" = Some property /\
    get property "owner" = JStr "carol:3".
Proof.
  split; [evaluate|]. split; [evaluate|]. split; [evaluate|].
  eexists _, _, _, _. split; [evaluate|].
  split; [evaluate|]. split; [evaluate|]. split; evaluate.
Qed.

(** C10. rechargeAccount does not look for the balance field: for a
    pending record and a transaction id of the table it returns, and the
    record it writes back carries undefined + amount, which is NaN in
    memory and null in the stored text: no number. *)
Theorem recharge_pending_user ctx name aadhar transactionID (n : Z) w user :
  getMSPID ctx = "usersMSP" ->
  In (transactionID, JNum n) UserContract.VALID_TRANSACTIONS ->
  stored_user w (JStr (User.makeKey [JStr name; JStr aadhar])) = Some user ->
  has user "upgradCoins" = false ->
  User.getKey user = JStr (User.makeKey [JStr name; JStr aadhar]) ->
  let userKey := User.makeKey [JStr name; JStr aadhar] in
  let userCompositeKey := createCompositeKey UserList.name [JStr userKey] in
  exists w',
    add (get user "upgradCoins") (JNum n) = JNaN /\
    run (UserContract.rechargeAccount ctx name aadhar transactionID) w
    = (Returned tt,
       [ Get userCompositeKey;
         Put userCompositeKey
             (User.toBuffer (set user "upgradCoins" JNaN)) ]) /\
    invoke (UserContract.rechargeAccount ctx name aadhar transactionID) w
    = (Returned tt, w') /\
    balance w' userKey = JNull.
Proof.
  intros Hmsp Hin Hu Hpending Hkey userKey userCompositeKey.
  fold userKey in Hu, Hkey.
  assert (get user "upgradCoins" = JUndefined) as Hget
    by (by apply get_absent, has_false).
  assert (run (UserContract.rechargeAccount ctx name aadhar transactionID) w
          = (Returned tt,
             [ Get userCompositeKey;
               Put userCompositeKey
                   (User.toBuffer (set user "upgradCoins" JNaN)) ]))
    as Hrun.
  { unfold run, UserContract.rechargeAccount. rewrite Hmsp.
    change (negb ("usersMSP" =? "usersMSP")%string) with false. cbv iota.
    assert (UserContract.get_literal UserContract.VALID_TRANSACTIONS
              transactionID = JNum n /\ n <> 0) as [-> Hn].
    { simpl in Hin.
      destruct Hin as [[= <- <-]|[[= <- <-]|[[= <- <-]|[]]]]; done. }
    cbn [truthy]. apply Z.eqb_neq in Hn as ->. cbn [negb].
    fold userKey. rewrite bind_getUser, Hu.
    unfold UserList.updateUser, putState, User.getKey.
    rewrite get_set_ne by done. fold (User.getKey user).
    rewrite Hkey, Hget. reflexivity. }
  eexists. split; [by rewrite Hget|]. split; [exact Hrun|].
  split; [by apply invoke_returned|].
  unfold balance, commit. cbn [fold_left apply_event].
  unfold userCompositeKey. rewrite stored_user_insert.
  rewrite get_reread_user, get_set_eq; [done| |done].
  apply NoDup_set. by eapply stored_user_NoDup.
Qed.

End pending.

Lemma recharge_pending_user_witness :
  exists w',
    invoke (UserContract.rechargeAccount Scenario.asUser "carol" "3" "upg100")
           Scenario.w_pending = (Returned tt, w') /\
    balance w' "carol:3" = JNull.
Proof.
  destruct (recharge_pending_user Scenario.asUser "carol" "3" "upg100" 100
              Scenario.w_pending Scenario.carol)
    as (w' & _ & _ & Hinv & Hbal);
    [reflexivity | simpl; auto | vm_compute; reflexivity ..|].
  exists w'. auto.
Defined.

(* ===================================================================== *)
(** ** rechargeAccount and approveNewUserRequest *)
(* ===================================================================== *)
Section balances.
Implicit Types (w : gmap string buffer) (user : jsobj).

(** X5. For a stored user with a numeric balance b and a transaction id
    the table maps to n, with b and b + n safe integers, rechargeAccount
    returns and the stored balance becomes b + n. *)
Lemma recharge_adds ctx name aadhar transactionID (n b : Z) w user :
  getMSPID ctx = "usersMSP" ->
  In (transactionID, JNum n) UserContract.VALID_TRANSACTIONS ->
  stored_user w (JStr (User.makeKey [JStr name; JStr aadhar])) = Some user ->
  get user "upgradCoins" = JNum b ->
  User.getKey user = JStr (User.makeKey [JStr name; JStr aadhar]) ->
  safe b ->
  safe (b + n) ->
  exists w',
    invoke (UserContract.rechargeAccount ctx name aadhar transactionID) w
    = (Returned tt, w') /\
    balance w' (User.makeKey [JStr name; JStr aadhar]) = JNum (b + n).
Proof.
  intros Hmsp Hin Hu Hb Hkey _ Hsafe.
  set (userKey := User.makeKey [JStr name; JStr aadhar]) in *.
  assert (run (UserContract.rechargeAccount ctx name aadhar transactionID) w
          = (Returned tt,
             [ Get (createCompositeKey UserList.name [JStr userKey]);
               Put (createCompositeKey UserList.name [JStr userKey])
                   (User.toBuffer (set user "upgradCoins" (JNum (b + n)))) ]))
    as Hrun.
  { unfold run, UserContract.rechargeAccount. rewrite Hmsp.
    change (negb ("usersMSP" =? "usersMSP")%string) with false. cbv iota.
    assert (UserContract.get_literal UserContract.VALID_TRANSACTIONS
              transactionID = JNum n /\ n <> 0) as [-> Hn].
    { simpl in Hin.
      destruct Hin as [[= <- <-]|[[= <- <-]|[[= <- <-]|[]]]]; done. }
    cbn [truthy]. apply Z.eqb_neq in Hn as ->. cbn [negb].
    fold userKey. rewrite bind_getUser, Hu.
    unfold UserList.updateUser, putState, User.getKey.
    rewrite get_set_ne by done. fold (User.getKey user).
    rewrite Hkey, Hb, add_safe by done. reflexivity. }
  eexists. split; [by apply invoke_returned|].
  unfold balance, commit. cbn [fold_left apply_event].
  rewrite stored_user_insert.
  rewrite get_reread_user, get_set_eq; [done| |done].
  apply NoDup_set. by eapply stored_user_NoDup.
Qed.

(** X6. A transaction id that names neither an entry of the table nor a
    member of [Object.prototype] is refused with "Invalid Bank Transaction
    ID" before any read, whether or not the user exists. *)
Lemma recharge_unknown ctx name aadhar transactionID w :
  getMSPID ctx = "usersMSP" ->
  has UserContract.VALID_TRANSACTIONS transactionID = false ->
  has UserContract.Object_prototype transactionID = false ->
  run (UserContract.rechargeAccount ctx name aadhar transactionID) w
  = (Thrown (Error "Invalid Bank Transaction ID"), []).
Proof.
  intros Hmsp Hown Hproto.
  unfold run, UserContract.rechargeAccount. rewrite Hmsp.
  change (negb ("usersMSP" =? "usersMSP")%string) with false. cbv iota.
  unfold UserContract.get_literal. rewrite Hown.
  rewrite (get_absent UserContract.Object_prototype transactionID)
    by (by apply has_false).
  reflexivity.
Qed.

(** C7. The claim fails for a transaction id outside the table that names
    a member every object literal inherits: alice, approved with balance 0,
    recharges with "constructor"; the transaction returns, writes her
    record, and the stored balance is no longer a number. *)
Theorem recharge_with_inherited_name :
  let w := Scenario.w_users in
  has UserContract.VALID_TRANSACTIONS "constructor" = false /\
  balance w "alice:1" = JNum 0 /\
  exists tr w',
    run (UserContract.rechargeAccount Scenario.asUser
           "alice" "1" "constructor") w
    = (Returned tt, tr) /\
    no_put tr = false /\
    invoke (UserContract.rechargeAccount Scenario.asUser
              "alice" "1" "constructor") w
    = (Returned tt, w') /\
    balance w' "alice:1" = JStr "0function Object() { [native code] }".
Proof.
  split; [reflexivity|]. split; [evaluate|].
  eexists _, _. split; [evaluate|]. split; [evaluate|]. split; evaluate.
Qed.


End balances.


Lemma recharge_adds_example :
  exists w',
    invoke (UserContract.rechargeAccount Scenario.asUser "bob" "2" "upg1000")
           Scenario.w_onsale = (Returned tt, w') /\
    balance w' "bob:2" = JNum 1500.
Proof.
  apply (recharge_adds Scenario.asUser "bob" "2" "upg1000" 1000 500
           Scenario.w_onsale Scenario.bob);
    [reflexivity | simpl; auto | vm_compute; reflexivity ..
    | split; reflexivity | split; reflexivity].
Defined.

(* ===================================================================== *)
(** ** The record codec *)
(* ===================================================================== *)
Section codec.
Implicit Types (o : jsobj) (w : gmap string buffer).

(** Assignment never moves the first field of its target. *)
Lemma assign_head k v (t src : jsobj) :
  exists v' rest, assign ((k, v) :: t) src = (k, v') :: rest.
Proof.
  unfold assign. revert v t.
  induction src as [|[k0 v0] r IH]; intros v t; simpl; [eauto|].
  destruct (String.eqb k k0); apply IH.
Qed.

(** An instance that starts with a key JSON can carry is written and
    read back as it is written. *)
Lemma codec_round_trip (new : jsobj -> jsobj) o :
  (forall x, exists c, new x = assign [("key", c)] x) ->
  serialisable (get (new o) "key") = true ->
  json_of (new (assign [] (json_of (new o)))) = json_of (new o).
Proof.
  intros Hnew Hser.
  destruct (Hnew o) as [c Hc].
  destruct (assign_head "key" c [] o) as (v & rest & Hhead).
  assert (NoDup (new o).*1) as Hnd
    by (rewrite Hc; apply NoDup_assign, NoDup_singleton).
  rewrite Hc, Hhead in Hser, Hnd |- *. cbn [get] in Hser.
  change ("key" =? "key")%string with true in Hser. cbv iota in Hser.
  assert (exists v', json_of (("key", v) :: rest)
                     = ("key", v') :: json_of rest) as [v' Hjson].
  { rewrite json_of_cons. destruct v; try done; eauto. }
  pose proof (NoDup_json_of _ Hnd) as Hnd'.
  rewrite parse_assign_id by done.
  destruct (Hnew (json_of (("key", v) :: rest))) as [c' ->].
  rewrite Hjson in Hnd' |- *. rewrite User_new_keyed by done.
  rewrite <- Hjson. apply json_of_idemp.
Qed.

(** C4, as the code has it. What [toBuffer] writes for an instance whose
    key JSON can carry decodes, and encodes again to the same buffer, for
    users and for properties.  An absent (empty) buffer and bytes that are
    no JSON text both make [fromBuffer] throw the parser's SyntaxError, and
    the lists' callers get undefined for both. *)
Theorem codec_round_trip_and_absence :
  (forall userObject,
     serialisable (User.getKey (User.createInstance userObject)) = true ->
     let buffer := User.toBuffer (User.createInstance userObject) in
     exists user,
       User.fromBuffer buffer = inr user /\ User.toBuffer user = buffer) /\
  (forall propertyObject,
     serialisable
       (Property.getKey (Property.createInstance propertyObject)) = true ->
     let buffer :=
       Property.toBuffer (Property.createInstance propertyObject) in
     exists property,
       Property.fromBuffer buffer = inr property /\
       Property.toBuffer property = buffer) /\
  (forall s,
     User.fromBuffer BufEmpty = inl SyntaxError /\
     User.fromBuffer (BufRaw s) = inl SyntaxError /\
     Property.fromBuffer BufEmpty = inl SyntaxError /\
     Property.fromBuffer (BufRaw s) = inl SyntaxError) /\
  (forall w key s,
     (w !! createCompositeKey UserList.name [key] = None \/
      w !! createCompositeKey UserList.name [key] = Some (BufRaw s)) ->
     stored_user w key = None) /\
  (forall w key s,
     (w !! createCompositeKey PropertyList.name [JStr key] = None \/
      w !! createCompositeKey PropertyList.name [JStr key] = Some (BufRaw s)) ->
     stored_property w key = None).
Proof.
  split_and!.
  - intros userObject Hser buffer. eexists. split; [reflexivity|].
    unfold buffer, User.toBuffer, stringify, User.createInstance. f_equal.
    apply codec_round_trip; [by eexists|exact Hser].
  - intros propertyObject Hser buffer. eexists. split; [reflexivity|].
    unfold buffer, Property.toBuffer, stringify, Property.createInstance.
    f_equal. apply codec_round_trip; [by eexists|exact Hser].
  - done.
  - intros w key s [H|H]; unfold stored_user; by rewrite H.
  - intros w key s [H|H]; unfold stored_property; by rewrite H.
Qed.

(** C4 as stated fails: decoding the absent buffer does not differ from
    decoding corrupt bytes, in the models and for the callers of the
    lists, down to the error viewProperty reports. *)
Lemma absent_and_corrupt_decode_alike :
  User.fromBuffer BufEmpty = User.fromBuffer (BufRaw "{") /\
  Property.fromBuffer BufEmpty = Property.fromBuffer (BufRaw "{") /\
  let corrupt : gmap string buffer :=
    {[ createCompositeKey PropertyList.name [JStr "P9"] := BufRaw "{" ]} in
  (corrupt !! createCompositeKey PropertyList.name [JStr "P9"]
   = Some (BufRaw "{")) /\
  ((∅ : gmap string buffer) !! createCompositeKey PropertyList.name [JStr "P9"]
   = None) /\
  stored_property corrupt "P9" = stored_property ∅ "P9" /\
  run (UserContract.viewProperty Scenario.asUser "P9") corrupt
  = run (UserContract.viewProperty Scenario.asUser "P9") ∅.
Proof. repeat split; vm_compute; reflexivity. Qed.

End codec.

Lemma codec_round_trip_and_absence_witness :
  let buffer := User.toBuffer (User.createInstance
                  [("name", JStr "alice"); ("aadhar", JStr "1");
                   ("upgradCoins", JNum 0)]) in
  exists user,
    User.fromBuffer buffer = inr user /\ User.toBuffer user = buffer.
Proof.
  destruct codec_round_trip_and_absence as (Huser & _).
  apply (Huser [("name", JStr "alice"); ("aadhar", JStr "1");
                ("upgradCoins", JNum 0)]).
  reflexivity.
Defined.

(** The record requestNewUser writes is not made by the codec: decoding
    it adds the key, and encoding does not give the stored bytes back. *)
Lemma request_record_gains_key :
  let w := Scenario.w_pending in
  let stored :=
    default BufEmpty
      (w !! createCompositeKey UserList.name [JStr "carol:3"]) in
  exists user,
    User.fromBuffer stored = inr user /\
    has user "key" = true /\
    User.toBuffer user <> stored.
Proof.
  eexists. split; [vm_compute; reflexivity|].
  split; [vm_compute; reflexivity|]. vm_compute. discriminate.
Qed.

(* ===================================================================== *)
(** ** Records stay under their own keys *)
(* ===================================================================== *)
Section keyed_ledgers.
Implicit Types (w : gmap string buffer) (tr : list event) (o : jsobj).

Lemma has_of_get o k : get o k <> JUndefined -> has o k = true.
Proof.
  intros Hget. destruct (has o k) eqn:E; [done|].
  apply has_false, get_absent in E. done.
Qed.

Lemma reread_key_user o key :
  NoDup o.*1 -> get o "key" = JStr key ->
  User.getKey (User.new (assign [] (json_of o))) = JStr key.
Proof.
  intros Hnd Hkey. pose proof (NoDup_json_of _ Hnd) as Hnd'.
  assert (get (json_of o) "key" = JStr key) as Hget
    by (by rewrite get_json_of, Hkey).
  rewrite parse_assign_id, getKey_User_new by done.
  rewrite has_of_get; [done|by rewrite Hget].
Qed.

Lemma reread_key_property o key :
  NoDup o.*1 -> get o "key" = JStr key ->
  Property.getKey (Property.new (assign [] (json_of o))) = JStr key.
Proof.
  intros Hnd Hkey. pose proof (NoDup_json_of _ Hnd) as Hnd'.
  assert (get (json_of o) "key" = JStr key) as Hget
    by (by rewrite get_json_of, Hkey).
  rewrite parse_assign_id, getKey_Property_new by done.
  rewrite has_of_get; [done|by rewrite Hget].
Qed.

Lemma keyed_put_user o key :
  NoDup o.*1 -> User.getKey o = JStr key ->
  keyed_put (Put (createCompositeKey UserList.name [User.getKey o])
                 (User.toBuffer o)).
Proof.
  intros Hnd Hkey. left. exists key, (json_of o). rewrite Hkey.
  split_and!; [done..|]. by apply reread_key_user.
Qed.

Lemma keyed_put_property o key :
  NoDup o.*1 -> Property.getKey o = JStr key ->
  keyed_put (Put (createCompositeKey PropertyList.name [Property.getKey o])
                 (Property.toBuffer o)).
Proof.
  intros Hnd Hkey. right. exists key, (json_of o). rewrite Hkey.
  split_and!; [done..|]. by apply reread_key_property.
Qed.

Lemma keyed_empty : keyed ∅.
Proof. split; intros key r; vm_compute; discriminate. Qed.

Lemma keyed_apply_event w e : keyed w -> keyed_put e -> keyed (apply_event w e).
Proof.
  intros [Hu Hp] Hput. destruct e as [|ck value]; [done|]. simpl in *.
  destruct Hput as [(key & o & -> & -> & Hkey)|(key & o & -> & -> & Hkey)].
  - split.
    + intros key' user.
      destruct (decide (key' = key)) as [->|Hne].
      * unfold stored_user. rewrite lookup_insert_eq. simpl.
        by intros [= <-].
      * rewrite stored_user_insert_other; [apply Hu|].
        intros Heq%createCompositeKey_inj. done.
    + intros key' property.
      rewrite stored_property_insert_other; [apply Hp|].
      apply user_property_keys_differ.
  - split.
    + intros key' user.
      rewrite stored_user_insert_other; [apply Hu|].
      intros Heq. by eapply user_property_keys_differ.
    + intros key' property.
      destruct (decide (key' = key)) as [->|Hne].
      * unfold stored_property. rewrite lookup_insert_eq. simpl.
        by intros [= <-].
      * rewrite stored_property_insert_other; [apply Hp|].
        intros Heq%createCompositeKey_inj. done.
Qed.

Lemma keyed_commit tr w : keyed w -> Forall keyed_put tr -> keyed (commit tr w).
Proof.
  unfold commit. revert w.
  induction tr as [|e tr IH]; intros w Hw Htr; simpl; [done|].
  apply Forall_cons in Htr as [He Htr].
  apply IH; [by apply keyed_apply_event|done].
Qed.

(** The key of a stored record, as a field. *)
Lemma keyed_user w key user :
  keyed w -> stored_user w key = Some user ->
  User.getKey user = JStr (to_string key).
Proof. intros [Hu _] Hs. by apply Hu. Qed.

Lemma keyed_raw_user w key o :
  keyed w ->
  parse (default BufEmpty (w !! createCompositeKey UserList.name [JStr key]))
  = inr o ->
  User.getKey (User.new o) = JStr key.
Proof.
  intros [Hu _] Hparse. apply Hu. by rewrite stored_user_parse, Hparse.
Qed.

Lemma keyed_raw_property w key o :
  keyed w ->
  parse (default BufEmpty
           (w !! createCompositeKey PropertyList.name [JStr key]))
  = inr o ->
  Property.getKey (Property.new o) = JStr key.
Proof.
  intros [_ Hp] Hparse. apply Hp. by rewrite stored_property_parse, Hparse.
Qed.

Lemma getKey_User_set o k v :
  NoDup o.*1 -> k <> "key" -> k <> "name" -> k <> "aadhar" ->
  User.getKey (User.new (set o k v)) = User.getKey (User.new o).
Proof.
  intros Hnd H1 H2 H3.
  rewrite !getKey_User_new by (done || by apply NoDup_set).
  by rewrite has_set_ne, !get_set_ne.
Qed.

Lemma getKey_Property_set o k v :
  NoDup o.*1 -> k <> "key" -> k <> "propertyId" ->
  Property.getKey (Property.new (set o k v)) = Property.getKey (Property.new o).
Proof.
  intros Hnd H1 H2.
  rewrite !getKey_Property_new by (done || by apply NoDup_set).
  by rewrite has_set_ne, !get_set_ne.
Qed.

End keyed_ledgers.

Section keyed_transactions.
Implicit Types (w : gmap string buffer) (tr : list event) (o : jsobj).

Lemma keyed_put_user_set o key k v :
  NoDup o.*1 -> User.getKey o = JStr key -> k <> "key" ->
  keyed_put (Put (createCompositeKey UserList.name
                    [User.getKey (set o k v)])
                 (User.toBuffer (set o k v))).
Proof.
  intros Hnd Hkey Hk. apply (keyed_put_user _ key); [by apply NoDup_set|].
  unfold User.getKey in *. by rewrite get_set_ne.
Qed.

Lemma keyed_put_property_set o key k v :
  NoDup o.*1 -> Property.getKey o = JStr key -> k <> "key" ->
  keyed_put (Put (createCompositeKey PropertyList.name
                    [Property.getKey (set o k v)])
                 (Property.toBuffer (set o k v))).
Proof.
  intros Hnd Hkey Hk. apply (keyed_put_property _ key); [by apply NoDup_set|].
  unfold Property.getKey in *. by rewrite get_set_ne.
Qed.

Ltac returned_trace :=
  unfold run; repeat run_step;
  unfold throw, ret, putState, PropertyList.updateProperty,
    PropertyList.addProperty, UserList.updateUser, UserList.addUser;
  intros H; first [discriminate H | injection H as <- <-];
  cbn [app]; repeat (apply Forall_cons; split); try apply Forall_nil;
  try exact I.

Lemma requestNewUser_keyed ctx name email phone aadhar w r tr :
  run (UserContract.requestNewUser ctx name email phone aadhar) w
  = (Returned r, tr) -> Forall keyed_put tr.
Proof.
  unfold UserContract.requestNewUser. returned_trace.
  left. eexists _, _. split_and!; reflexivity.
Qed.

Lemma rechargeAccount_keyed ctx name aadhar transactionID w r tr :
  keyed w ->
  run (UserContract.rechargeAccount ctx name aadhar transactionID) w
  = (Returned r, tr) -> Forall keyed_put tr.
Proof.
  intros [Hu _]. unfold UserContract.rechargeAccount. returned_trace.
  eapply keyed_put_user_set; [by eapply stored_user_NoDup|by apply Hu|done].
Qed.

Lemma propertyRegistrationRequest_keyed ctx name aadhar propertyId price
    w r tr :
  run (UserContract.propertyRegistrationRequest
         ctx name aadhar propertyId price) w
  = (Returned r, tr) -> Forall keyed_put tr.
Proof.
  unfold UserContract.propertyRegistrationRequest. returned_trace.
  right. eexists _, _. split; [reflexivity|]. split; [reflexivity|].
  by destruct price.
Qed.

Lemma updateProperty_keyed ctx name aadhar propertyId status w r tr :
  keyed w ->
  run (UserContract.updateProperty ctx name aadhar propertyId status) w
  = (Returned r, tr) -> Forall keyed_put tr.
Proof.
  intros [_ Hp]. unfold UserContract.updateProperty. returned_trace.
  eapply keyed_put_property_set;
    [by eapply stored_property_NoDup|by apply Hp|done].
Qed.

Lemma keyed_put_user_as o o' key :
  NoDup o'.*1 -> User.getKey o = JStr key -> User.getKey o' = JStr key ->
  keyed_put (Put (createCompositeKey UserList.name [User.getKey o])
                 (User.toBuffer o')).
Proof.
  intros Hnd Hkey Hkey'. rewrite Hkey, <- Hkey'. by eapply keyed_put_user.
Qed.

Lemma keyed_put_property_as o o' key :
  NoDup o'.*1 ->
  Property.getKey o = JStr key -> Property.getKey o' = JStr key ->
  keyed_put (Put (createCompositeKey PropertyList.name [Property.getKey o])
                 (Property.toBuffer o')).
Proof.
  intros Hnd Hkey Hkey'. rewrite Hkey, <- Hkey'. by eapply keyed_put_property.
Qed.

Lemma purchaseProperty_keyed ctx name aadhar propertyId w r tr :
  keyed w ->
  run (UserContract.purchaseProperty ctx name aadhar propertyId) w
  = (Returned r, tr) -> Forall keyed_put tr.
Proof.
  intros Hk. pose proof Hk as [Hu Hp].
  rewrite purchaseProperty_run. cbv zeta.
  destruct (stored_user w (JStr _)) as [user|] eqn:Huser; [|done].
  destruct (stored_property w propertyId) as [property|] eqn:Hprop; [|done].
  destruct (eq_str _ _); [|done]. destruct (ge _ _); [|done].
  destruct (stored_user w (get property "owner")) as [oldOwner|] eqn:Hold;
    [|done].
  intros H. injection H as <- <-.
  pose proof (stored_user_NoDup _ _ _ Huser).
  pose proof (stored_user_NoDup _ _ _ Hold).
  pose proof (stored_property_NoDup _ _ _ Hprop).
  cbn [app]. repeat (apply Forall_cons; split); try apply Forall_nil;
    try exact I.
  - apply (keyed_put_property_as _ _ propertyId).
    + unfold sold. by do 2 apply NoDup_set.
    + by apply Hp.
    + unfold sold, Property.getKey. rewrite !get_set_ne by done.
      by apply Hp.
  - eapply keyed_put_user_as.
    + unfold debited. by apply NoDup_set.
    + by apply Hu.
    + unfold debited, User.getKey. rewrite get_set_ne by done.
      by apply Hu.
  - eapply keyed_put_user_as.
    + unfold credited. by apply NoDup_set.
    + by eapply keyed_user.
    + unfold credited, User.getKey. rewrite get_set_ne by done.
      by eapply keyed_user.
Qed.

Lemma approveNewUserRequest_keyed ctx name aadhar w r tr :
  keyed w ->
  run (RegistrarContract.approveNewUserRequest ctx name aadhar) w
  = (Returned r, tr) -> Forall keyed_put tr.
Proof.
  intros Hk. unfold RegistrarContract.approveNewUserRequest. returned_trace.
  match goal with
  | H : try_undefined (parse ?b) = Some ?o |- _ =>
      destruct (parse b) as [|o'] eqn:Hparse; [done|];
      simpl in H; injection H as ->
  end.
  pose proof (parse_NoDup _ _ Hparse) as Hnd.
  apply (keyed_put_user _ (User.makeKey [JStr name; JStr aadhar]));
    [apply NoDup_User_new|].
  unfold User.createInstance. rewrite getKey_User_set by done.
  by eapply keyed_raw_user.
Qed.

Lemma approvePropertyRegistrationRequest_keyed ctx propertyId w r tr :
  keyed w ->
  run (RegistrarContract.approvePropertyRegistrationRequest ctx propertyId) w
  = (Returned r, tr) -> Forall keyed_put tr.
Proof.
  intros Hk. unfold RegistrarContract.approvePropertyRegistrationRequest.
  returned_trace.
  match goal with
  | H : try_undefined (parse ?b) = Some ?o |- _ =>
      destruct (parse b) as [|o'] eqn:Hparse; [done|];
      simpl in H; injection H as ->
  end.
  pose proof (parse_NoDup _ _ Hparse) as Hnd.
  apply (keyed_put_property _ propertyId); [apply NoDup_Property_new|].
  unfold Property.createInstance. rewrite getKey_Property_set by done.
  by eapply keyed_raw_property.
Qed.

Lemma bind_ret_returned {A B} (m : Inv A) (f : A -> B) w r tr :
  run (bind m (fun a => ret (f a))) w = (Returned r, tr) ->
  exists a, run m w = (Returned a, tr).
Proof.
  unfold run, bind, ret.
  destruct (m w []) as [[a|e'] tr']; intros H;
    [injection H as <- <-; eauto|discriminate H].
Qed.

(** Every transaction keeps the records under their own keys. *)
Lemma keyed_invoke ctx c w : keyed w -> keyed (invoke (dispatch ctx c) w).2.
Proof.
  intros Hk.
  destruct (run (dispatch ctx c) w) as [[r|e] tr] eqn:Hrun.
  2: { by rewrite (invoke_thrown _ _ _ _ Hrun). }
  rewrite (invoke_returned _ _ _ _ Hrun). simpl.
  apply keyed_commit; [done|].
  destruct c; unfold dispatch in Hrun;
    apply bind_ret_returned in Hrun as [a Hrun];
    eauto using requestNewUser_keyed, rechargeAccount_keyed,
      propertyRegistrationRequest_keyed, updateProperty_keyed,
      purchaseProperty_keyed, approveNewUserRequest_keyed,
      approvePropertyRegistrationRequest_keyed.
Qed.

(** On every ledger the transactions can reach from the empty one, the
    records are under their own keys. *)
Lemma reachable_keyed w : reachable w -> keyed w.
Proof.
  induction 1 as [|ctx c w _ IH]; [apply keyed_empty|by apply keyed_invoke].
Qed.

End keyed_transactions.

(* ===================================================================== *)
(** ** User registration: request, duplicate, approval, view *)
(* ===================================================================== *)
Section registration.
Implicit Types (w : gmap string buffer) (user o : jsobj).

Lemma stored_user_None_parse w key :
  stored_user w key = None ->
  try_undefined
    (parse (default BufEmpty (w !! createCompositeKey UserList.name [key])))
  = None.
Proof. rewrite stored_user_parse. by destruct (try_undefined _). Qed.

Lemma stored_property_None_parse w key :
  stored_property w key = None ->
  try_undefined
    (parse (default BufEmpty
              (w !! createCompositeKey PropertyList.name [JStr key])))
  = None.
Proof. rewrite stored_property_parse. by destruct (try_undefined _). Qed.

(** The run of requestNewUser on a free key. *)
Lemma requestNewUser_run_free ctx name email phone aadhar w :
  getMSPID ctx = "usersMSP" ->
  stored_user w (JStr (User.makeKey [JStr name; JStr aadhar])) = None ->
  let userObj :=
    [ ("name", JStr name); ("email", JStr email); ("phone", JStr phone);
      ("aadhar", JStr aadhar); ("createdAt", JStr (now ctx)) ] in
  let userCompositeKey :=
    createCompositeKey UserList.name
      [JStr (User.makeKey [JStr name; JStr aadhar])] in
  run (UserContract.requestNewUser ctx name email phone aadhar) w
  = (Returned userObj,
     [Get userCompositeKey; Put userCompositeKey (stringify userObj)]).
Proof.
  intros Hmsp Hfree userObj userCompositeKey.
  apply stored_user_None_parse in Hfree.
  unfold run, UserContract.requestNewUser. rewrite Hmsp.
  change (negb ("usersMSP" =? "usersMSP")%string) with false. cbv iota.
  rewrite bind_getState.
  change UserContract.user_prefix with UserList.name.
  rewrite Hfree. reflexivity.
Qed.

(** X1. On a key with no readable record, a usersMSP principal's
    requestNewUser returns the request object and stores it: the lists read
    it back with the key name:aadhar and without a balance, and viewUser,
    for any principal, returns the object as it was stored. *)
Theorem requestNewUser_stores_request ctx ctx' name email phone aadhar w :
  getMSPID ctx = "usersMSP" ->
  stored_user w (JStr (User.makeKey [JStr name; JStr aadhar])) = None ->
  let userKey := User.makeKey [JStr name; JStr aadhar] in
  let userObj :=
    [ ("name", JStr name); ("email", JStr email); ("phone", JStr phone);
      ("aadhar", JStr aadhar); ("createdAt", JStr (now ctx)) ] in
  exists w',
    invoke (UserContract.requestNewUser ctx name email phone aadhar) w
    = (Returned userObj, w') /\
    stored_user w' (JStr userKey) = Some (("key", JStr userKey) :: userObj) /\
    balance w' userKey = JUndefined /\
    run (UserContract.viewUser ctx' name aadhar) w'
    = (Returned userObj,
       [Get (createCompositeKey UserList.name [JStr userKey])]).
Proof.
  intros Hmsp Hfree userKey userObj.
  pose proof (requestNewUser_run_free ctx name email phone aadhar w
                Hmsp Hfree) as Hrun. cbv zeta in Hrun.
  eexists. split; [by apply invoke_returned|].
  unfold commit. cbn [fold_left apply_event].
  split_and!.
  - unfold stored_user. by rewrite lookup_insert_eq.
  - unfold balance, stored_user. by rewrite lookup_insert_eq.
  - unfold run, UserContract.viewUser. rewrite bind_getState.
    change UserContract.user_prefix with UserList.name.
    by rewrite lookup_insert_eq.
Qed.

(** X2. requestNewUser on a key that holds a record throws after its one
    read and writes nothing; the message tells a record with a balance of
    0 or more ("already exists") from one without a balance field
    ("Registration Request ... is already exists"). *)
Theorem requestNewUser_duplicate ctx name email phone aadhar w user :
  getMSPID ctx = "usersMSP" ->
  stored_user w (JStr (User.makeKey [JStr name; JStr aadhar])) = Some user ->
  let read :=
    [Get (createCompositeKey UserList.name
            [JStr (User.makeKey [JStr name; JStr aadhar])])] in
  (forall b : Z,
     get user "upgradCoins" = JNum b -> 0 <= b ->
     run (UserContract.requestNewUser ctx name email phone aadhar) w
     = (Thrown (Error ("User with name " ++ name ++ " and aadhar " ++ aadhar
                       ++ " already exists")), read)) /\
  (has user "upgradCoins" = false ->
   run (UserContract.requestNewUser ctx name email phone aadhar) w
   = (Thrown (Error ("User Registration Request for name " ++ name
                     ++ " and aadhar " ++ aadhar ++ "is already exists")),
      read)) /\
  (invoke (UserContract.requestNewUser ctx name email phone aadhar) w).2 = w.
Proof.
  intros Hmsp Hu read.
  rewrite stored_user_parse in Hu.
  destruct (parse (default BufEmpty (w !! _))) as [e|o] eqn:Hparse; [done|].
  simpl in Hu. injection Hu as <-.
  pose proof (parse_NoDup _ _ Hparse) as Hnd.
  assert (forall msg,
    (if ge (get o "upgradCoins") (JNum 0)
     then Error ("User with name " ++ name ++ " and aadhar " ++ aadhar
                 ++ " already exists")
     else Error ("User Registration Request for name " ++ name
                 ++ " and aadhar " ++ aadhar ++ "is already exists")) = msg ->
    run (UserContract.requestNewUser ctx name email phone aadhar) w
    = (Thrown msg, read)) as Hrun.
  { intros msg <-.
    unfold run, UserContract.requestNewUser. rewrite Hmsp.
    change (negb ("usersMSP" =? "usersMSP")%string) with false. cbv iota.
    rewrite bind_getState.
    change UserContract.user_prefix with UserList.name.
    rewrite Hparse. cbn [try_undefined].
    by destruct (ge _ _). }
  split_and!.
  - intros b Hb Hle. apply Hrun.
    rewrite get_User_new in Hb by done. rewrite Hb.
    unfold ge. cbn [is_stringy to_number andb].
    by apply Z.leb_le in Hle as ->.
  - intros Hno. apply Hrun.
    assert (get (User.new o) "upgradCoins" = JUndefined) as Hget
      by (by apply get_absent, has_false).
    rewrite get_User_new in Hget by done. by rewrite Hget.
  - pose proof (Hrun _ eq_refl) as Hthrown.
    by rewrite (invoke_thrown _ _ _ _ Hthrown).
Qed.

(** X3. Request and approval compose: on a free key, requestNewUser by a
    user and then approveNewUserRequest by a registrar leave the record
    with its key, the requested fields and upgradCoins 0, and viewUser
    returns it. *)
Theorem request_then_approve ctxU ctxR ctx' name email phone aadhar w :
  getMSPID ctxU = "usersMSP" ->
  getMSPID ctxR = "registrarMSP" ->
  stored_user w (JStr (User.makeKey [JStr name; JStr aadhar])) = None ->
  let userKey := User.makeKey [JStr name; JStr aadhar] in
  let userObj :=
    [ ("key", JStr userKey);
      ("name", JStr name); ("email", JStr email); ("phone", JStr phone);
      ("aadhar", JStr aadhar); ("createdAt", JStr (now ctxU));
      ("upgradCoins", JNum 0) ] in
  exists r w1 w2,
    invoke (UserContract.requestNewUser ctxU name email phone aadhar) w
    = (Returned r, w1) /\
    invoke (RegistrarContract.approveNewUserRequest ctxR name aadhar) w1
    = (Returned userObj, w2) /\
    stored_user w2 (JStr userKey) = Some userObj /\
    balance w2 userKey = JNum 0 /\
    run (UserContract.viewUser ctx' name aadhar) w2
    = (Returned userObj,
       [Get (createCompositeKey UserList.name [JStr userKey])]).
Proof.
  intros HmspU HmspR Hfree userKey userObj.
  pose proof (requestNewUser_run_free ctxU name email phone aadhar w
                HmspU Hfree) as Hrun. cbv zeta in Hrun.
  eexists _, _, _. split; [by apply invoke_returned|].
  unfold commit. cbn [fold_left apply_event].
  assert (run (RegistrarContract.approveNewUserRequest ctxR name aadhar)
            (<[createCompositeKey UserList.name [JStr userKey] :=
                 stringify
                   [ ("name", JStr name); ("email", JStr email);
                     ("phone", JStr phone); ("aadhar", JStr aadhar);
                     ("createdAt", JStr (now ctxU)) ]]> w)
          = (Returned userObj,
             [ Get (createCompositeKey UserList.name [JStr userKey]);
               Put (createCompositeKey UserList.name [JStr userKey])
                   (User.toBuffer userObj) ])) as Hrun2.
  { unfold run, RegistrarContract.approveNewUserRequest. rewrite HmspR.
    change (negb ("registrarMSP" =? "registrarMSP")%string) with false.
    cbv iota. rewrite bind_getState.
    change RegistrarContract.user_prefix with UserList.name.
    fold userKey. by rewrite lookup_insert_eq. }
  split; [by apply invoke_returned|].
  unfold commit. cbn [fold_left apply_event].
  split_and!.
  - unfold stored_user. by rewrite lookup_insert_eq.
  - unfold balance, stored_user. by rewrite lookup_insert_eq.
  - unfold run, UserContract.viewUser. rewrite bind_getState.
    change UserContract.user_prefix with UserList.name.
    by rewrite lookup_insert_eq.
Qed.

(** X4. approveNewUserRequest on a key with no readable record throws
    "does not exists." after its one read and writes nothing. *)
Theorem approveNewUserRequest_missing ctx name aadhar w :
  getMSPID ctx = "registrarMSP" ->
  stored_user w (JStr (User.makeKey [JStr name; JStr aadhar])) = None ->
  run (RegistrarContract.approveNewUserRequest ctx name aadhar) w
  = (Thrown (Error ("The new user request for name " ++ name
                    ++ " and aadhar " ++ aadhar ++ " does not exists.")),
     [Get (createCompositeKey UserList.name
             [JStr (User.makeKey [JStr name; JStr aadhar])])]) /\
  (invoke (RegistrarContract.approveNewUserRequest ctx name aadhar) w).2 = w.
Proof.
  intros Hmsp Hfree. apply stored_user_None_parse in Hfree.
  assert (run (RegistrarContract.approveNewUserRequest ctx name aadhar) w
    = (Thrown (Error ("The new user request for name " ++ name
                      ++ " and aadhar " ++ aadhar ++ " does not exists.")),
       [Get (createCompositeKey UserList.name
               [JStr (User.makeKey [JStr name; JStr aadhar])])])) as Hrun.
  { unfold run, RegistrarContract.approveNewUserRequest. rewrite Hmsp.
    change (negb ("registrarMSP" =? "registrarMSP")%string) with false.
    cbv iota. rewrite bind_getState.
    change RegistrarContract.user_prefix with UserList.name.
    by rewrite Hfree. }
  split; [done|]. by erewrite invoke_thrown.
Qed.

End registration.

Lemma requestNewUser_stores_request_witness :
  exists w',
    invoke (UserContract.requestNewUser Scenario.asUser
              "carol" "c@x" "33" "3") Scenario.w_users
    = (Returned [ ("name", JStr "carol"); ("email", JStr "c@x");
                  ("phone", JStr "33"); ("aadhar", JStr "3");
                  ("createdAt", JStr (now Scenario.asUser)) ], w') /\
    balance w' "carol:3" = JUndefined.
Proof.
  destruct (requestNewUser_stores_request Scenario.asUser Scenario.asRegistrar
              "carol" "c@x" "33" "3" Scenario.w_users)
    as (w' & Hinv & _ & Hbal & _); [reflexivity | vm_compute; reflexivity |].
  exists w'. auto.
Defined.

Lemma requestNewUser_duplicate_witness :
  run (UserContract.requestNewUser Scenario.asUser "alice" "a@x" "11" "1")
      Scenario.w_onsale
  = (Thrown (Error "User with name alice and aadhar 1 already exists"),
     [Get (createCompositeKey UserList.name [JStr "alice:1"])]) /\
  run (UserContract.requestNewUser Scenario.asUser "carol" "c@x" "33" "3")
      Scenario.w_pending
  = (Thrown (Error
       "User Registration Request for name carol and aadhar 3is already exists"),
     [Get (createCompositeKey UserList.name [JStr "carol:3"])]).
Proof.
  split.
  - destruct (requestNewUser_duplicate Scenario.asUser "alice" "a@x" "11" "1"
                Scenario.w_onsale Scenario.alice)
      as (Happroved & _); [reflexivity | vm_compute; reflexivity |].
    apply (Happroved 500); [vm_compute; reflexivity | lia].
  - destruct (requestNewUser_duplicate Scenario.asUser "carol" "c@x" "33" "3"
                Scenario.w_pending Scenario.carol)
      as (_ & Hpending & _); [reflexivity | vm_compute; reflexivity |].
    apply Hpending. vm_compute; reflexivity.
Defined.

Lemma request_then_approve_witness :
  exists r w1 w2 userObj,
    invoke (UserContract.requestNewUser Scenario.asUser
              "carol" "c@x" "33" "3") Scenario.w_users = (Returned r, w1) /\
    invoke (RegistrarContract.approveNewUserRequest Scenario.asRegistrar
              "carol" "3") w1 = (Returned userObj, w2) /\
    balance w2 "carol:3" = JNum 0.
Proof.
  destruct (request_then_approve Scenario.asUser Scenario.asRegistrar
              Scenario.asUser "carol" "c@x" "33" "3" Scenario.w_users)
    as (r & w1 & w2 & H1 & H2 & _ & Hbal & _);
    [reflexivity | reflexivity | vm_compute; reflexivity |].
  eexists r, w1, w2, _. eauto.
Defined.

Lemma approveNewUserRequest_missing_witness :
  (invoke (RegistrarContract.approveNewUserRequest Scenario.asRegistrar
             "zed" "9") Scenario.w_users).2 = Scenario.w_users.
Proof.
  apply (approveNewUserRequest_missing Scenario.asRegistrar "zed" "9"
           Scenario.w_users); [reflexivity | vm_compute; reflexivity].
Defined.

(* ===================================================================== *)
(** ** rechargeAccount: the other paths *)
(* ===================================================================== *)
Section recharge.
Implicit Types (w : gmap string buffer) (user : jsobj).

Lemma table_amount transactionID (n : Z) :
  In (transactionID, JNum n) UserContract.VALID_TRANSACTIONS ->
  UserContract.get_literal UserContract.VALID_TRANSACTIONS transactionID
  = JNum n /\ 0 < n.
Proof.
  simpl. intros [[= <- <-]|[[= <- <-]|[[= <- <-]|[]]]]; done.
Qed.

Lemma table_amount_safe transactionID (n : Z) :
  In (transactionID, JNum n) UserContract.VALID_TRANSACTIONS -> safe n.
Proof.
  simpl. intros [[= <- <-]|[[= <- <-]|[[= <- <-]|[]]]]; split; reflexivity.
Qed.

(** The run of rechargeAccount on a stored record and an id of the
    table, whatever the record holds as balance. *)
Lemma rechargeAccount_run ctx name aadhar transactionID (n : Z) w user :
  getMSPID ctx = "usersMSP" ->
  In (transactionID, JNum n) UserContract.VALID_TRANSACTIONS ->
  stored_user w (JStr (User.makeKey [JStr name; JStr aadhar])) = Some user ->
  User.getKey user = JStr (User.makeKey [JStr name; JStr aadhar]) ->
  let userCompositeKey :=
    createCompositeKey UserList.name
      [JStr (User.makeKey [JStr name; JStr aadhar])] in
  run (UserContract.rechargeAccount ctx name aadhar transactionID) w
  = (Returned tt,
     [ Get userCompositeKey;
       Put userCompositeKey
           (User.toBuffer
              (set user "upgradCoins"
                   (add (get user "upgradCoins") (JNum n)))) ]).
Proof.
  intros Hmsp Hin Hu Hkey userCompositeKey.
  apply table_amount in Hin as [Hn Hpos].
  unfold run, UserContract.rechargeAccount. rewrite Hmsp.
  change (negb ("usersMSP" =? "usersMSP")%string) with false. cbv iota.
  rewrite Hn. cbn [truthy].
  assert ((n =? 0) = false) as -> by (apply Z.eqb_neq; lia). cbn [negb].
  rewrite bind_getUser, Hu.
  unfold UserList.updateUser, putState, User.getKey.
  rewrite get_set_ne by done. fold (User.getKey user). by rewrite Hkey.
Qed.

(** X7. rechargeAccount with an id of the table for a key without a
    readable record throws "There is no user ..." after its one read and
    writes nothing. *)
Theorem rechargeAccount_missing_user ctx name aadhar transactionID (n : Z) w :
  getMSPID ctx = "usersMSP" ->
  In (transactionID, JNum n) UserContract.VALID_TRANSACTIONS ->
  stored_user w (JStr (User.makeKey [JStr name; JStr aadhar])) = None ->
  run (UserContract.rechargeAccount ctx name aadhar transactionID) w
  = (Thrown (Error ("There is no user with name " ++ name ++ " and aadhar "
                    ++ aadhar ++ " exists")),
     [Get (createCompositeKey UserList.name
             [JStr (User.makeKey [JStr name; JStr aadhar])])]) /\
  (invoke (UserContract.rechargeAccount ctx name aadhar transactionID) w).2
  = w.
Proof.
  intros Hmsp Hin Hnone. apply table_amount in Hin as [Hn Hpos].
  assert (run (UserContract.rechargeAccount ctx name aadhar transactionID) w
    = (Thrown (Error ("There is no user with name " ++ name ++ " and aadhar "
                      ++ aadhar ++ " exists")),
       [Get (createCompositeKey UserList.name
               [JStr (User.makeKey [JStr name; JStr aadhar])])])) as Hrun.
  { unfold run, UserContract.rechargeAccount. rewrite Hmsp.
    change (negb ("usersMSP" =? "usersMSP")%string) with false. cbv iota.
    rewrite Hn. cbn [truthy].
    assert ((n =? 0) = false) as -> by (apply Z.eqb_neq; lia). cbn [negb].
    by rewrite bind_getUser, Hnone. }
  split; [done|]. by rewrite (invoke_thrown _ _ _ _ Hrun).
Qed.

(** X8. A balance without approval: on a record without a balance field,
    two recharges with ids of the table both return, and the stored
    balance afterwards is the second amount, a number (the first one left
    null, which counts as 0 in the second sum). *)
Theorem recharge_twice_pending ctx name aadhar id1 id2 (n1 n2 : Z) w user :
  getMSPID ctx = "usersMSP" ->
  In (id1, JNum n1) UserContract.VALID_TRANSACTIONS ->
  In (id2, JNum n2) UserContract.VALID_TRANSACTIONS ->
  stored_user w (JStr (User.makeKey [JStr name; JStr aadhar])) = Some user ->
  has user "upgradCoins" = false ->
  User.getKey user = JStr (User.makeKey [JStr name; JStr aadhar]) ->
  exists w1 w2,
    invoke (UserContract.rechargeAccount ctx name aadhar id1) w
    = (Returned tt, w1) /\
    invoke (UserContract.rechargeAccount ctx name aadhar id2) w1
    = (Returned tt, w2) /\
    balance w1 (User.makeKey [JStr name; JStr aadhar]) = JNull /\
    balance w2 (User.makeKey [JStr name; JStr aadhar]) = JNum n2.
Proof.
  intros Hmsp Hin1 Hin2 Hu Hpending Hkey.
  set (userKey := User.makeKey [JStr name; JStr aadhar]) in *.
  pose proof (stored_user_NoDup _ _ _ Hu) as Hnd.
  assert (get user "upgradCoins" = JUndefined) as Hget
    by (by apply get_absent, has_false).
  pose proof (rechargeAccount_run ctx name aadhar id1 n1 w user
                Hmsp Hin1 Hu Hkey) as Hrun1.
  cbv zeta in Hrun1. fold userKey in Hrun1. rewrite Hget in Hrun1.
  change (add JUndefined (JNum n1)) with JNaN in Hrun1.
  set (user1 := set user "upgradCoins" JNaN) in *.
  assert (NoDup user1.*1) as Hnd1 by (by apply NoDup_set).
  set (w1 := commit [Get (createCompositeKey UserList.name [JStr userKey]);
                     Put (createCompositeKey UserList.name [JStr userKey])
                         (User.toBuffer user1)] w).
  assert (stored_user w1 (JStr userKey)
          = Some (User.new (assign [] (json_of user1)))) as Hu1
    by apply stored_user_insert.
  assert (get (User.new (assign [] (json_of user1))) "upgradCoins" = JNull)
    as Hget1.
  { rewrite get_reread_user by done. unfold user1. by rewrite get_set_eq. }
  assert (User.getKey (User.new (assign [] (json_of user1))) = JStr userKey)
    as Hkey1.
  { apply reread_key_user; [done|]. unfold user1.
    rewrite get_set_ne by done. exact Hkey. }
  pose proof (rechargeAccount_run ctx name aadhar id2 n2 w1 _
                Hmsp Hin2 Hu1 Hkey1) as Hrun2.
  cbv zeta in Hrun2. fold userKey in Hrun2. rewrite Hget1 in Hrun2.
  exists w1. eexists. split; [by apply invoke_returned|].
  split; [by apply invoke_returned|]. split.
  - unfold balance. by rewrite Hu1, Hget1.
  - unfold balance, commit. cbn [fold_left apply_event].
    rewrite stored_user_insert, get_reread_user, get_set_eq; [| |done].
    + change (add JNull (JNum n2)) with (JNum (round_double (0 + n2))).
      by rewrite Z.add_0_l, round_double_safe by (by eapply table_amount_safe).
    + apply NoDup_set, NoDup_User_new.
Qed.

End recharge.

Lemma recharge_unknown_witness :
  run (UserContract.rechargeAccount Scenario.asUser "alice" "1" "upg1")
      Scenario.w_users
  = (Thrown (Error "Invalid Bank Transaction ID"), []).
Proof.
  apply (recharge_unknown Scenario.asUser "alice" "1" "upg1"
           Scenario.w_users); reflexivity.
Defined.

Lemma rechargeAccount_missing_user_witness :
  (invoke (UserContract.rechargeAccount Scenario.asUser "zed" "9" "upg100")
          Scenario.w_users).2 = Scenario.w_users.
Proof.
  apply (rechargeAccount_missing_user Scenario.asUser "zed" "9" "upg100" 100
           Scenario.w_users);
    [reflexivity | simpl; auto | vm_compute; reflexivity].
Defined.

Lemma recharge_twice_pending_witness :
  exists w1 w2,
    invoke (UserContract.rechargeAccount Scenario.asUser "carol" "3" "upg100")
           Scenario.w_pending = (Returned tt, w1) /\
    invoke (UserContract.rechargeAccount Scenario.asUser "carol" "3" "upg500")
           w1 = (Returned tt, w2) /\
    balance w2 "carol:3" = JNum 500.
Proof.
  destruct (recharge_twice_pending Scenario.asUser "carol" "3"
              "upg100" "upg500" 100 500 Scenario.w_pending Scenario.carol)
    as (w1 & w2 & H1 & H2 & _ & Hbal);
    [reflexivity | simpl; auto | simpl; auto | vm_compute; reflexivity ..|].
  exists w1, w2. auto.
Defined.

(* ===================================================================== *)
(** ** Property registration, approval and status updates *)
(* ===================================================================== *)
Section properties.
Implicit Types (w : gmap string buffer) (user property : jsobj).

(** X9. For a stored user and a property id, not empty, without a
    readable record, propertyRegistrationRequest stores the request: the
    list reads it back with the caller's key as owner, the price as JSON
    keeps it, and no status; the user records are as before. *)
Theorem propertyRegistrationRequest_stores_request ctx name aadhar
    propertyId price w user :
  getMSPID ctx = "usersMSP" ->
  propertyId <> "" ->
  stored_property w propertyId = None ->
  stored_user w (JStr (User.makeKey [JStr name; JStr aadhar])) = Some user ->
  exists r w' property,
    invoke (UserContract.propertyRegistrationRequest
              ctx name aadhar propertyId price) w = (Returned r, w') /\
    stored_property w' propertyId = Some property /\
    Property.getKey property = JStr propertyId /\
    get property "owner" = JStr (User.makeKey [JStr name; JStr aadhar]) /\
    get property "price" = json_value price /\
    get property "status" = JUndefined /\
    (forall key, stored_user w' key = stored_user w key).
Proof.
  intros Hmsp _ Hnone Hu.
  pose proof (propertyRegistrationRequest_any_user ctx name aadhar propertyId
                price w user Hmsp Hnone Hu) as Hrun. cbv zeta in Hrun.
  eexists _, _, _. split; [by apply invoke_returned|].
  unfold commit. cbn [fold_left apply_event].
  split; [unfold stored_property; by rewrite lookup_insert_eq|].
  split_and!; try (by destruct price).
  intros key. apply stored_user_insert_other.
  intros Heq. by eapply user_property_keys_differ.
Qed.

(** X10. propertyRegistrationRequest on an id that holds a record throws
    after its one read, before looking for the user, and writes nothing;
    the message says "Property ... is already exists" for a registered
    property and "Property Registration request ... is already exists" for
    any other status or none. *)
Theorem propertyRegistrationRequest_duplicate ctx name aadhar propertyId
    price w property :
  getMSPID ctx = "usersMSP" ->
  stored_property w propertyId = Some property ->
  let read :=
    [Get (createCompositeKey PropertyList.name [JStr propertyId])] in
  (get property "status" = JStr "registered" ->
   run (UserContract.propertyRegistrationRequest
          ctx name aadhar propertyId price) w
   = (Thrown (Error ("Property with propertyId " ++ propertyId
                     ++ "is already exists")), read)) /\
  (get property "status" <> JStr "registered" ->
   run (UserContract.propertyRegistrationRequest
          ctx name aadhar propertyId price) w
   = (Thrown (Error ("Property Registration request for propertyId "
                     ++ propertyId ++ "is already exists")), read)) /\
  (invoke (UserContract.propertyRegistrationRequest
             ctx name aadhar propertyId price) w).2 = w.
Proof.
  intros Hmsp Hp read.
  rewrite stored_property_parse in Hp.
  destruct (parse (default BufEmpty (w !! _))) as [e|o] eqn:Hparse; [done|].
  simpl in Hp. injection Hp as <-.
  pose proof (parse_NoDup _ _ Hparse) as Hnd.
  assert (forall msg,
    (if eq_str (get o "status") "registered"
     then Error ("Property with propertyId " ++ propertyId
                 ++ "is already exists")
     else Error ("Property Registration request for propertyId "
                 ++ propertyId ++ "is already exists")) = msg ->
    run (UserContract.propertyRegistrationRequest
           ctx name aadhar propertyId price) w
    = (Thrown msg, read)) as Hrun.
  { intros msg <-.
    unfold run, UserContract.propertyRegistrationRequest. rewrite Hmsp.
    change (negb ("usersMSP" =? "usersMSP")%string) with false. cbv iota.
    rewrite bind_getState, makeKey_property.
    change UserContract.property_prefix with PropertyList.name.
    rewrite Hparse. cbn [try_undefined].
    change UserContract.REGISTERED with "registered".
    by destruct (eq_str _ _). }
  rewrite get_Property_new by done.
  split_and!.
  - intros Hst. apply Hrun. by rewrite Hst.
  - intros Hst. apply Hrun.
    assert (eq_str (get o "status") "registered" = false) as ->; [|done].
    unfold eq_str. destruct (get o "status"); try done.
    apply eqb_neq. congruence.
  - pose proof (Hrun _ eq_refl) as Hthrown.
    by rewrite (invoke_thrown _ _ _ _ Hthrown).
Qed.

(** The run of approvePropertyRegistrationRequest on a stored record. *)
Lemma approveProperty_run ctx propertyId w property :
  getMSPID ctx = "registrarMSP" ->
  stored_property w propertyId = Some property ->
  Property.getKey property = JStr propertyId ->
  exists approved,
    run (RegistrarContract.approvePropertyRegistrationRequest ctx propertyId) w
    = (Returned approved,
       [ Get (createCompositeKey PropertyList.name [JStr propertyId]);
         Put (createCompositeKey PropertyList.name [JStr propertyId])
             (Property.toBuffer approved) ]) /\
    NoDup approved.*1 /\
    get approved "status" = JStr "registered" /\
    forall k, k <> "status" -> get approved k = get property k.
Proof.
  intros Hmsp Hp Hkey.
  rewrite stored_property_parse in Hp.
  destruct (parse (default BufEmpty (w !! _))) as [e|o] eqn:Hparse; [done|].
  simpl in Hp. injection Hp as <-.
  pose proof (parse_NoDup _ _ Hparse) as Hnd.
  assert (NoDup (set o "status" (JStr "registered")).*1) as Hnd'
    by (by apply NoDup_set).
  exists (Property.createInstance (set o "status" (JStr "registered"))).
  unfold Property.createInstance. split_and!.
  - unfold run, RegistrarContract.approvePropertyRegistrationRequest.
    rewrite Hmsp.
    change (negb ("registrarMSP" =? "registrarMSP")%string) with false.
    cbv iota. rewrite bind_getState, makeKey_property.
    change RegistrarContract.property_prefix with PropertyList.name.
    rewrite Hparse. cbn [try_undefined].
    unfold PropertyList.addProperty, Property.createInstance.
    rewrite bind_putState.
    rewrite getKey_Property_set, Hkey by done. reflexivity.
  - apply NoDup_Property_new.
  - rewrite get_Property_new by done. apply get_set_eq.
  - intros k Hk. destruct (decide (k = "key")) as [->|Hne].
    + fold (Property.getKey (Property.new (set o "status" (JStr "registered")))).
      fold (Property.getKey (Property.new o)).
      by rewrite getKey_Property_set.
    + rewrite !get_Property_new by done. by rewrite get_set_ne.
Qed.

(** X11. approvePropertyRegistrationRequest does not look at the status:
    for every stored property, pending, registered or on sale, a
    registrar's call stores it with status registered and with the owner
    and the price it had. *)
Theorem approveProperty_registers ctx propertyId w property :
  getMSPID ctx = "registrarMSP" ->
  stored_property w propertyId = Some property ->
  Property.getKey property = JStr propertyId ->
  exists approved w' property',
    invoke (RegistrarContract.approvePropertyRegistrationRequest
              ctx propertyId) w = (Returned approved, w') /\
    stored_property w' propertyId = Some property' /\
    get property' "status" = JStr "registered" /\
    get property' "owner" = json_value (get property "owner") /\
    get property' "price" = json_value (get property "price").
Proof.
  intros Hmsp Hp Hkey.
  destruct (approveProperty_run ctx propertyId w property Hmsp Hp Hkey)
    as (approved & Hrun & Hnd & Hst & Hrest).
  eexists approved, _, _. split; [by apply invoke_returned|].
  unfold commit. cbn [fold_left apply_event].
  split; [apply stored_property_insert|].
  rewrite !get_reread_property by done.
  rewrite Hst, !Hrest by done. done.
Qed.

(** X12. approvePropertyRegistrationRequest on an id, not empty, without
    a readable record throws "does not exists." after its one read and
    writes nothing. *)
Theorem approveProperty_missing ctx propertyId w :
  getMSPID ctx = "registrarMSP" ->
  propertyId <> "" ->
  stored_property w propertyId = None ->
  run (RegistrarContract.approvePropertyRegistrationRequest ctx propertyId) w
  = (Thrown (Error ("Property with propertyId " ++ propertyId
                    ++ " does not exists.")),
     [Get (createCompositeKey PropertyList.name [JStr propertyId])]) /\
  (invoke (RegistrarContract.approvePropertyRegistrationRequest
             ctx propertyId) w).2 = w.
Proof.
  intros Hmsp _ Hnone. apply stored_property_None_parse in Hnone.
  assert (run (RegistrarContract.approvePropertyRegistrationRequest
                 ctx propertyId) w
    = (Thrown (Error ("Property with propertyId " ++ propertyId
                      ++ " does not exists.")),
       [Get (createCompositeKey PropertyList.name [JStr propertyId])]))
    as Hrun.
  { unfold run, RegistrarContract.approvePropertyRegistrationRequest.
    rewrite Hmsp.
    change (negb ("registrarMSP" =? "registrarMSP")%string) with false.
    cbv iota. rewrite bind_getState, makeKey_property.
    change RegistrarContract.property_prefix with PropertyList.name.
    by rewrite Hnone. }
  split; [done|]. by rewrite (invoke_thrown _ _ _ _ Hrun).
Qed.

(** X13. updateProperty by the caller whose name:aadhar key is the stored
    owner, with status registered or onSale, stores that status and keeps
    owner and price.  It asks for no earlier status: a request the
    registrar never approved gets its status this way too. *)
Theorem updateProperty_sets_status ctx name aadhar propertyId status
    w property :
  stored_property w propertyId = Some property ->
  Property.getKey property = JStr propertyId ->
  get property "owner" = JStr (User.makeKey [JStr name; JStr aadhar]) ->
  status = "registered" \/ status = "onSale" ->
  exists w' property',
    invoke (UserContract.updateProperty ctx name aadhar propertyId status) w
    = (Returned tt, w') /\
    stored_property w' propertyId = Some property' /\
    get property' "status" = JStr status /\
    get property' "owner" = JStr (User.makeKey [JStr name; JStr aadhar]) /\
    get property' "price" = json_value (get property "price").
Proof.
  intros Hp Hkey Howner Hstatus.
  pose proof (stored_property_NoDup _ _ _ Hp) as Hnd.
  assert (run (UserContract.updateProperty ctx name aadhar propertyId status) w
    = (Returned tt,
       [ Get (createCompositeKey PropertyList.name [JStr propertyId]);
         Put (createCompositeKey PropertyList.name [JStr propertyId])
             (Property.toBuffer (set property "status" (JStr status))) ]))
    as Hrun.
  { unfold run, UserContract.updateProperty.
    rewrite bind_getProperty, makeKey_property, Hp, Howner.
    cbn [eq_str]. rewrite String.eqb_refl.
    assert (String.eqb status UserContract.REGISTERED
            || String.eqb status UserContract.ON_SALE = true) as ->
      by (destruct Hstatus as [-> | ->]; reflexivity).
    unfold PropertyList.updateProperty, putState, Property.getKey.
    rewrite get_set_ne by done. fold (Property.getKey property).
    by rewrite Hkey. }
  eexists _, _. split; [by apply invoke_returned|].
  unfold commit. cbn [fold_left apply_event].
  split; [apply stored_property_insert|].
  assert (NoDup (set property "status" (JStr status)).*1)
    by (by apply NoDup_set).
  rewrite !get_reread_property by done.
  rewrite get_set_eq, !get_set_ne, Howner by done. done.
Qed.

(** X14. updateProperty throws after its one read, with no write, for an
    id, not empty, without a readable record ("does not exists") and, for
    the owner of a stored property, for a status other than registered and
    onSale. *)
Theorem updateProperty_rejects ctx name aadhar propertyId status w :
  let read :=
    [Get (createCompositeKey PropertyList.name [JStr propertyId])] in
  (propertyId <> "" ->
   stored_property w propertyId = None ->
   run (UserContract.updateProperty ctx name aadhar propertyId status) w
   = (Thrown (Error ("Property with propertyId " ++ propertyId
                     ++ " does not exists")), read)) /\
  (forall property,
     stored_property w propertyId = Some property ->
     get property "owner" = JStr (User.makeKey [JStr name; JStr aadhar]) ->
     status <> "registered" -> status <> "onSale" ->
     run (UserContract.updateProperty ctx name aadhar propertyId status) w
     = (Thrown (Error
          "The input value of the status should be either registered or onSale"),
        read)).
Proof.
  intros read. split.
  - intros _ Hnone. unfold run, UserContract.updateProperty.
    by rewrite bind_getProperty, makeKey_property, Hnone.
  - intros property Hp Howner Hr Hs.
    unfold run, UserContract.updateProperty.
    rewrite bind_getProperty, makeKey_property, Hp, Howner.
    cbn [eq_str]. rewrite String.eqb_refl.
    change UserContract.REGISTERED with "registered".
    change UserContract.ON_SALE with "onSale".
    by rewrite !eqb_neq.
Qed.

End properties.

Lemma propertyRegistrationRequest_stores_request_witness :
  exists r w' property,
    invoke (UserContract.propertyRegistrationRequest Scenario.asUser
              "bob" "2" "P2" (JNum 70)) Scenario.w_onsale = (Returned r, w') /\
    stored_property w' "P2" = Some property /\
    get property "owner" = JStr "bob:2" /\
    get property "price" = JNum 70.
Proof.
  destruct (propertyRegistrationRequest_stores_request Scenario.asUser
              "bob" "2" "P2" (JNum 70) Scenario.w_onsale Scenario.bob)
    as (r & w' & property & H1 & H2 & _ & H3 & H4 & _);
    [reflexivity | discriminate | vm_compute; reflexivity ..|].
  exists r, w', property. auto.
Defined.

Lemma propertyRegistrationRequest_duplicate_witness :
  run (UserContract.propertyRegistrationRequest Scenario.asUser
         "bob" "2" "P1" (JNum 70)) Scenario.w_onsale
  = (Thrown (Error
       "Property Registration request for propertyId P1is already exists"),
     [Get (createCompositeKey PropertyList.name [JStr "P1"])]).
Proof.
  destruct (propertyRegistrationRequest_duplicate Scenario.asUser
              "bob" "2" "P1" (JNum 70) Scenario.w_onsale Scenario.P1)
    as (_ & Hother & _); [reflexivity | vm_compute; reflexivity |].
  apply Hother. vm_compute. discriminate.
Defined.

Lemma approveProperty_registers_witness :
  exists approved w' property',
    invoke (RegistrarContract.approvePropertyRegistrationRequest
              Scenario.asRegistrar "P1") Scenario.w_onsale
    = (Returned approved, w') /\
    get Scenario.P1 "status" = JStr "onSale" /\
    stored_property w' "P1" = Some property' /\
    get property' "status" = JStr "registered".
Proof.
  destruct (approveProperty_registers Scenario.asRegistrar "P1"
              Scenario.w_onsale Scenario.P1)
    as (approved & w' & property' & H1 & H2 & H3 & _);
    [reflexivity | vm_compute; reflexivity ..|].
  exists approved, w', property'. split_and!; auto.
Defined.

Lemma approveProperty_missing_witness :
  (invoke (RegistrarContract.approvePropertyRegistrationRequest
             Scenario.asRegistrar "P9") Scenario.w_onsale).2
  = Scenario.w_onsale.
Proof.
  apply (approveProperty_missing Scenario.asRegistrar "P9" Scenario.w_onsale);
    [reflexivity | discriminate | vm_compute; reflexivity].
Defined.

Lemma updateProperty_sets_status_witness :
  exists w' property',
    invoke (UserContract.updateProperty Scenario.asUser
              "alice" "1" "P1" "registered") Scenario.w_onsale
    = (Returned tt, w') /\
    stored_property w' "P1" = Some property' /\
    get property' "status" = JStr "registered".
Proof.
  destruct (updateProperty_sets_status Scenario.asUser "alice" "1" "P1"
              "registered" Scenario.w_onsale Scenario.P1)
    as (w' & property' & H1 & H2 & H3 & _);
    [vm_compute; reflexivity .. | by left |].
  exists w', property'. auto.
Defined.

Lemma updateProperty_rejects_witness :
  run (UserContract.updateProperty Scenario.asUser "alice" "1" "P9" "onSale")
      Scenario.w_onsale
  = (Thrown (Error "Property with propertyId P9 does not exists"),
     [Get (createCompositeKey PropertyList.name [JStr "P9"])]) /\
  run (UserContract.updateProperty Scenario.asUser "alice" "1" "P1" "sold")
      Scenario.w_onsale
  = (Thrown (Error
       "The input value of the status should be either registered or onSale"),
     [Get (createCompositeKey PropertyList.name [JStr "P1"])]).
Proof.
  destruct (updateProperty_rejects Scenario.asUser "alice" "1" "P9" "onSale"
              Scenario.w_onsale) as (Hmissing & _).
  destruct (updateProperty_rejects Scenario.asUser "alice" "1" "P1" "sold"
              Scenario.w_onsale) as (_ & Hstatus).
  split.
  - apply Hmissing; [discriminate | vm_compute; reflexivity].
  - apply (Hstatus Scenario.P1);
      [vm_compute; reflexivity | vm_compute; reflexivity
      | discriminate | discriminate].
Defined.

(* ===================================================================== *)
(** ** purchaseProperty: the other paths *)
(* ===================================================================== *)
Section purchase_paths.
Implicit Types (w : gmap string buffer) (user property oldOwner : jsobj).

(** X16. When the owner named by the property, a non-empty string, has
    no readable record, purchaseProperty by a buyer with enough coins
    (balance and price stored as numbers, safe integers) throws the
    TypeError of the access to the undefined seller, after the three reads,
    and writes nothing. *)
Theorem purchase_seller_missing ctx name aadhar propertyId w user property
    (ownerKey : string) (b p : Z) :
  stored_user w (JStr (User.makeKey [JStr name; JStr aadhar])) = Some user ->
  stored_property w propertyId = Some property ->
  get property "status" = JStr "onSale" ->
  get user "upgradCoins" = JNum b ->
  get property "price" = JNum p ->
  safe b -> safe p ->
  p <= b ->
  get property "owner" = JStr ownerKey ->
  ownerKey <> "" ->
  stored_user w (JStr ownerKey) = None ->
  run (UserContract.purchaseProperty ctx name aadhar propertyId) w
  = (Thrown TypeError,
     [ Get (createCompositeKey UserList.name
              [JStr (User.makeKey [JStr name; JStr aadhar])]);
       Get (createCompositeKey PropertyList.name [JStr propertyId]);
       Get (createCompositeKey UserList.name [JStr ownerKey]) ]) /\
  (invoke (UserContract.purchaseProperty ctx name aadhar propertyId) w).2 = w.
Proof.
  intros Hu Hp Hst Hb Hprice _ _ Hle Howner _ Hnone.
  pose proof (purchaseProperty_run ctx name aadhar propertyId w) as Hrun.
  cbv zeta in Hrun.
  rewrite Hu, Hp, Hst, Hb, Hprice, Howner, Hnone in Hrun.
  unfold ge in Hrun. cbn [eq_str is_stringy to_number andb] in Hrun.
  change ("onSale" =? "onSale")%string with true in Hrun.
  apply Z.leb_le in Hle. rewrite Hle in Hrun. cbv iota in Hrun.
  split; [exact Hrun|]. by rewrite (invoke_thrown _ _ _ _ Hrun).
Qed.

(** X17. A buyer whose record has no balance field cannot buy: whatever
    the price of the property on sale, purchaseProperty throws the
    "no sufficient funds" error after two reads and writes nothing. *)
Theorem purchase_by_pending_user ctx name aadhar propertyId w user property :
  stored_user w (JStr (User.makeKey [JStr name; JStr aadhar])) = Some user ->
  has user "upgradCoins" = false ->
  stored_property w propertyId = Some property ->
  get property "status" = JStr "onSale" ->
  run (UserContract.purchaseProperty ctx name aadhar propertyId) w
  = (Thrown (Error ("There are no sufficient funds for the user with name "
                    ++ name ++ " and aadhar " ++ aadhar
                    ++ " to purchase this property")),
     [ Get (createCompositeKey UserList.name
              [JStr (User.makeKey [JStr name; JStr aadhar])]);
       Get (createCompositeKey PropertyList.name [JStr propertyId]) ]) /\
  (invoke (UserContract.purchaseProperty ctx name aadhar propertyId) w).2 = w.
Proof.
  intros Hu Hpending Hp Hst.
  assert (get user "upgradCoins" = JUndefined) as Hget
    by (by apply get_absent, has_false).
  pose proof (purchaseProperty_run ctx name aadhar propertyId w) as Hrun.
  cbv zeta in Hrun. rewrite Hu, Hp, Hst, Hget in Hrun.
  cbn [eq_str] in Hrun.
  change ("onSale" =? "onSale")%string with true in Hrun.
  assert (ge JUndefined (get property "price") = false) as Hge
    by (unfold ge; by destruct (get property "price")).
  rewrite Hge in Hrun. cbv iota in Hrun.
  split; [exact Hrun|]. by rewrite (invoke_thrown _ _ _ _ Hrun).
Qed.

(** X18. A price stored as text is subtracted as a number and added as
    text: for a price that is the string of decimal digits of p, with the
    two balances b and s, the price p and b - p safe integers, a purchase
    between two users leaves the buyer's stored balance at b - p and the
    seller's stored balance at the string made of the digits of the old
    balance followed by the price. *)
Theorem purchase_with_text_price ctx name aadhar propertyId w
    user property oldOwner (ownerKey price : string) (b s p : Z) :
  let userKey := User.makeKey [JStr name; JStr aadhar] in
  stored_user w (JStr userKey) = Some user ->
  stored_property w propertyId = Some property ->
  get property "owner" = JStr ownerKey ->
  stored_user w (JStr ownerKey) = Some oldOwner ->
  User.getKey user = JStr userKey ->
  User.getKey oldOwner = JStr ownerKey ->
  userKey <> ownerKey ->
  get property "status" = JStr "onSale" ->
  get user "upgradCoins" = JNum b ->
  get oldOwner "upgradCoins" = JNum s ->
  get property "price" = JStr price ->
  string_to_number price = Some p ->
  p <= b ->
  safe b -> safe s -> safe p -> safe (b - p) ->
  exists w',
    invoke (UserContract.purchaseProperty ctx name aadhar propertyId) w
    = (Returned tt, w') /\
    balance w' userKey = JNum (b - p) /\
    balance w' ownerKey = JStr (num_to_string s ++ price).
Proof.
  intros userKey Hu Hp Howner Ho Hku Hko Hne Hst Hb Hs Hprice Hnum Hle
    _ _ _ Hsub.
  pose proof (purchaseProperty_run ctx name aadhar propertyId w) as Hrun.
  cbv zeta in Hrun. fold userKey in Hrun.
  rewrite Hu, Hp, Hst, Hb, Hprice, Howner, Ho, Hku, Hko in Hrun.
  unfold ge in Hrun. cbn [eq_str is_stringy to_number andb] in Hrun.
  change ("onSale" =? "onSale")%string with true in Hrun.
  rewrite Hnum in Hrun.
  apply Z.leb_le in Hle. rewrite Hle in Hrun. cbv iota in Hrun.
  eexists. split; [by apply invoke_returned|].
  unfold commit. cbn [fold_left apply_event app].
  pose proof (stored_user_NoDup _ _ _ Hu) as Hndu.
  pose proof (stored_user_NoDup _ _ _ Ho) as Hndo.
  unfold balance. split.
  - rewrite stored_user_insert_other, stored_user_insert.
    + unfold debited. rewrite get_reread_user, get_set_eq, Hb;
        [|by apply NoDup_set|done].
      unfold sub. cbn [to_number]. rewrite Hnum.
      change (JNum (round_double (b - p)) = JNum (b - p)).
      by rewrite round_double_safe.
    + intros Heq%createCompositeKey_inj. done.
  - rewrite stored_user_insert.
    unfold credited. rewrite get_reread_user, get_set_eq, Hs;
      [done|by apply NoDup_set|done].
Qed.

(** X19. A purchase touches three records only: on a ledger whose records
    are under their own keys, every user other than the buyer and the
    owner, and every other property, is stored after a successful
    purchaseProperty as it was before. *)
Theorem purchase_leaves_the_rest ctx name aadhar propertyId w w' property :
  keyed w ->
  stored_property w propertyId = Some property ->
  invoke (UserContract.purchaseProperty ctx name aadhar propertyId) w
  = (Returned tt, w') ->
  (forall key,
     key <> User.makeKey [JStr name; JStr aadhar] ->
     key <> to_string (get property "owner") ->
     stored_user w' (JStr key) = stored_user w (JStr key)) /\
  (forall propertyId',
     propertyId' <> propertyId ->
     stored_property w' propertyId' = stored_property w propertyId').
Proof.
  intros Hk Hprop Hinv. pose proof Hk as [Hku Hkp].
  destruct (run (UserContract.purchaseProperty ctx name aadhar propertyId) w)
    as [[[]|e] tr] eqn:Hrun.
  2: { rewrite (invoke_thrown _ _ _ _ Hrun) in Hinv. done. }
  rewrite (invoke_returned _ _ _ _ Hrun) in Hinv. injection Hinv as Hw'.
  apply purchaseProperty_returned in Hrun
    as (user & property0 & oldOwner & Hu & Hp & Ho & Hst & Hge & Hcommit).
  rewrite Hprop in Hp. injection Hp as <-.
  rewrite Hcommit in Hw'. clear Hcommit.
  rewrite (Hku _ _ Hu), (Hkp _ _ Hprop),
    (keyed_user _ _ _ Hk Ho) in Hw'.
  subst w'. split.
  - intros key Hne1 Hne2.
    rewrite !stored_user_insert_other; [done| | |].
    + intros Heq. by eapply user_property_keys_differ.
    + intros Heq%createCompositeKey_inj. done.
    + intros Heq%createCompositeKey_inj. done.
  - intros propertyId' Hne.
    rewrite !stored_property_insert_other; [done| | |].
    + intros Heq%createCompositeKey_inj. done.
    + apply user_property_keys_differ.
    + apply user_property_keys_differ.
Qed.

End purchase_paths.

Lemma purchase_seller_missing_witness :
  (invoke (UserContract.purchaseProperty Scenario.asUser "bob" "2" "P7")
          Scenario.w_orphan).2 = Scenario.w_orphan.
Proof.
  apply (purchase_seller_missing Scenario.asUser "bob" "2" "P7"
           Scenario.w_orphan Scenario.bob_funded Scenario.P7 "erin:5" 500 40);
    [vm_compute; reflexivity | vm_compute; reflexivity
    | vm_compute; reflexivity | vm_compute; reflexivity
    | vm_compute; reflexivity | split; reflexivity | split; reflexivity
    | lia | vm_compute; reflexivity | discriminate
    | vm_compute; reflexivity].
Defined.

Lemma purchase_by_pending_user_witness :
  (invoke (UserContract.purchaseProperty Scenario.asUser "carol" "3" "P1")
          (Scenario.after
             (UserContract.requestNewUser Scenario.asUser
                "carol" "c@x" "33" "3") Scenario.w_onsale)).2
  = Scenario.after
      (UserContract.requestNewUser Scenario.asUser "carol" "c@x" "33" "3")
      Scenario.w_onsale.
Proof.
  apply (purchase_by_pending_user Scenario.asUser "carol" "3" "P1"
           (Scenario.after
              (UserContract.requestNewUser Scenario.asUser
                 "carol" "c@x" "33" "3") Scenario.w_onsale)
           Scenario.carol Scenario.P1);
    vm_compute; reflexivity.
Defined.

Lemma purchase_with_text_price_witness :
  exists w',
    invoke (UserContract.purchaseProperty Scenario.asUser "alice" "1" "P3")
           Scenario.w_text_price = (Returned tt, w') /\
    balance w' "alice:1" = JNum 460 /\
    balance w' "bob:2" = JStr "50040".
Proof.
  apply (purchase_with_text_price Scenario.asUser "alice" "1" "P3"
           Scenario.w_text_price Scenario.alice_funded Scenario.P3
           Scenario.bob_funded "bob:2" "40" 500 500 40);
    try (vm_compute; reflexivity);
    [discriminate | lia | split; reflexivity ..].
Defined.

Lemma invoke_bind_ret {A B} (m : Inv A) (f : A -> B) w :
  (invoke (bind m (fun r => ret (f r))) w).2 = (invoke m w).2.
Proof.
  unfold invoke, bind, ret. by destruct (m w []) as [[a|e] tr].
Qed.

(** A ledger written as a chain of transactions from the empty one is
    reachable. *)
Ltac reachable_by_calls :=
  repeat match goal with
  | |- reachable ∅ => apply reachable_empty
  | |- reachable (invoke ?m ?w).2 =>
      let c := lazymatch m with
        | UserContract.requestNewUser ?ctx ?a ?b ?c ?d =>
            constr:((ctx, RequestNewUser a b c d))
        | UserContract.rechargeAccount ?ctx ?a ?b ?c =>
            constr:((ctx, RechargeAccount a b c))
        | UserContract.propertyRegistrationRequest ?ctx ?a ?b ?c ?d =>
            constr:((ctx, PropertyRegistrationRequest a b c d))
        | UserContract.updateProperty ?ctx ?a ?b ?c ?d =>
            constr:((ctx, UpdateProperty a b c d))
        | UserContract.purchaseProperty ?ctx ?a ?b ?c =>
            constr:((ctx, PurchaseProperty a b c))
        | RegistrarContract.approveNewUserRequest ?ctx ?a ?b =>
            constr:((ctx, ApproveNewUserRequest a b))
        | RegistrarContract.approvePropertyRegistrationRequest ?ctx ?a =>
            constr:((ctx, ApprovePropertyRegistrationRequest a))
        end in
      replace (invoke m w).2 with (invoke (dispatch c.1 c.2) w).2
        by apply invoke_bind_ret;
      apply reachable_invoke
  end.

(** The ledgers of the scenario are ledgers the transactions produce. *)
Lemma w_newcomer_reachable : reachable Scenario.w_newcomer.
Proof.
  unfold Scenario.w_newcomer, Scenario.w_onsale, Scenario.w_funded,
    Scenario.w_users, Scenario.after.
  reachable_by_calls.
Qed.

(** C5. The claim fails once a balance is stored as text.  The price is
    stored as the client sent it and the seller is credited with [+], so
    after selling P4 at "1" bob's balance is the text "5001".  Against P5,
    on sale at "50000", the test of the funds compares two strings: bob,
    with 5001 coins, buys a property of 50000; the call returns, writes the
    three records and leaves him at -44999.  The ledger is one the
    transactions produce from the empty one. *)
Theorem text_balance_buys_beyond_funds :
  let w := Scenario.w_text_balance in
  reachable w /\
  exists property tr w',
    stored_property w "P5" = Some property /\
    get property "status" = JStr "onSale" /\
    get property "price" = JStr "50000" /\
    balance w "bob:2" = JStr "5001" /\
    to_number (balance w "bob:2") = Some 5001 /\
    to_number (get property "price") = Some 50000 /\
    run (UserContract.purchaseProperty Scenario.asUser "bob" "2" "P5") w
    = (Returned tt, tr) /\
    no_put tr = false /\
    invoke (UserContract.purchaseProperty Scenario.asUser "bob" "2" "P5") w
    = (Returned tt, w') /\
    balance w' "bob:2" = JNum (-44999) /\
    balance w' "alice:1" = JStr "49950000".
Proof.
  split.
  { unfold Scenario.w_text_balance, Scenario.w_text_sale, Scenario.w_funded,
      Scenario.w_users, Scenario.after.
    reachable_by_calls. }
  eexists _, _, _. split; [evaluate|]. split; [evaluate|].
  split; [evaluate|]. split; [evaluate|]. split; [evaluate|].
  split; [evaluate|]. split; [evaluate|]. split; [evaluate|].
  split; [evaluate|]. split; evaluate.
Qed.

Lemma purchase_leaves_the_rest_witness :
  stored_user
    (Scenario.after
       (UserContract.purchaseProperty Scenario.asUser "bob" "2" "P1")
       Scenario.w_newcomer) (JStr "dave:4")
  = stored_user Scenario.w_newcomer (JStr "dave:4").
Proof.
  destruct (purchase_leaves_the_rest Scenario.asUser "bob" "2" "P1"
              Scenario.w_newcomer
              (Scenario.after
                 (UserContract.purchaseProperty Scenario.asUser "bob" "2" "P1")
                 Scenario.w_newcomer)
              Scenario.P1) as (Husers & _).
  - apply reachable_keyed, w_newcomer_reachable.
  - vm_compute; reflexivity.
  - apply invoke_eta. vm_compute; reflexivity.
  - apply Husers; discriminate.
Defined.

(* ===================================================================== *)
(** ** Views, the two namespaces, the list round trip, keys *)
(* ===================================================================== *)
Section views_and_lists.
Implicit Types (w : gmap string buffer) (tr : list event) (o : jsobj).

(** X20. The four view transactions check no MSP: for a view of a user,
    or of a property with an id that is not empty, the run is the same for
    every principal, it makes one read and no write, and the ledger is left
    as it is. *)
Theorem views_read_only ctx ctx' v w :
  v <> UserViewProperty "" ->
  v <> RegistrarViewProperty "" ->
  run (dispatch_view ctx v) w = run (dispatch_view ctx' v) w /\
  (exists r key, run (dispatch_view ctx v) w = (r, [Get key])) /\
  (invoke (dispatch_view ctx v) w).2 = w.
Proof.
  intros _ _. split; [by destruct v|].
  assert (exists r key, run (dispatch_view ctx v) w = (r, [Get key]))
    as (r & key & Hrun).
  { destruct v; unfold run, dispatch_view, UserContract.viewUser,
      UserContract.viewProperty, RegistrarContract.viewUser,
      RegistrarContract.viewProperty;
      [unfold bind at 1 .. | idtac]; repeat run_step; unfold throw, ret;
      eexists _, _; reflexivity. }
  split; [eauto|].
  unfold invoke. unfold run in Hrun. rewrite Hrun. by destruct r.
Qed.

(** X21. viewUser, in both contracts, returns the stored JSON object of a
    readable record and throws "There is no user ..." otherwise;
    for a property id that is not empty, the user contract's viewProperty
    returns the list's instance or throws "There is no registered property
    ..."; the registrar's viewProperty, which tests the promise and not its
    value, does not throw and returns undefined for a property that is not
    there. *)
Theorem views_results ctx name aadhar propertyId w :
  propertyId <> "" ->
  let userKey := User.makeKey [JStr name; JStr aadhar] in
  let readUser := [Get (createCompositeKey UserList.name [JStr userKey])] in
  let readProperty :=
    [Get (createCompositeKey PropertyList.name [JStr propertyId])] in
  run (RegistrarContract.viewUser ctx name aadhar) w
  = run (UserContract.viewUser ctx name aadhar) w /\
  (stored_user w (JStr userKey) = None ->
   run (UserContract.viewUser ctx name aadhar) w
   = (Thrown (Error ("There is no user with name " ++ name ++ " and aadhar "
                     ++ aadhar ++ " exists")), readUser)) /\
  (forall user,
     stored_user w (JStr userKey) = Some user ->
     exists userObj,
       run (UserContract.viewUser ctx name aadhar) w
       = (Returned userObj, readUser) /\
       User.createInstance userObj = user) /\
  (stored_property w propertyId = None ->
   run (UserContract.viewProperty ctx propertyId) w
   = (Thrown (Error ("There is no registered property with propertyId "
                     ++ propertyId ++ " exists")), readProperty)) /\
  (forall property,
     stored_property w propertyId = Some property ->
     run (UserContract.viewProperty ctx propertyId) w
     = (Returned property, readProperty)) /\
  run (RegistrarContract.viewProperty ctx propertyId) w
  = (Returned (stored_property w propertyId), readProperty).
Proof.
  intros _ userKey readUser readProperty. split_and!.
  - reflexivity.
  - intros Hnone%stored_user_None_parse.
    unfold run, UserContract.viewUser. rewrite bind_getState.
    change UserContract.user_prefix with UserList.name.
    fold userKey. by rewrite Hnone.
  - intros user Hu. rewrite stored_user_parse in Hu.
    destruct (parse (default BufEmpty (w !! _))) as [e|o] eqn:Hparse;
      [done|].
    simpl in Hu. injection Hu as <-. exists o. split; [|done].
    unfold run, UserContract.viewUser. rewrite bind_getState.
    change UserContract.user_prefix with UserList.name.
    fold userKey. by rewrite Hparse.
  - intros Hnone. unfold run, UserContract.viewProperty.
    by rewrite bind_getProperty, makeKey_property, Hnone.
  - intros property Hp. unfold run, UserContract.viewProperty.
    by rewrite bind_getProperty, makeKey_property, Hp.
  - unfold run, RegistrarContract.viewProperty.
    by rewrite bind_getProperty, makeKey_property.
Qed.

Lemma commit_puts_within_users tr w key :
  puts_within UserList.name tr ->
  stored_property (commit tr w) key = stored_property w key.
Proof.
  unfold commit, puts_within. revert w.
  induction tr as [|e tr IH]; intros w Htr; simpl; [done|].
  apply Forall_cons in Htr as [He Htr]. rewrite IH by done.
  destruct e as [|ck value]; [done|]. destruct He as [k ->]. simpl.
  apply stored_property_insert_other, user_property_keys_differ.
Qed.

Lemma commit_puts_within_properties tr w key :
  puts_within PropertyList.name tr ->
  stored_user (commit tr w) key = stored_user w key.
Proof.
  unfold commit, puts_within. revert w.
  induction tr as [|e tr IH]; intros w Htr; simpl; [done|].
  apply Forall_cons in Htr as [He Htr]. rewrite IH by done.
  destruct e as [|ck value]; [done|]. destruct He as [k ->]. simpl.
  apply stored_user_insert_other.
  intros Heq. by eapply user_property_keys_differ.
Qed.

Ltac returned_puts_within :=
  unfold run; repeat run_step;
  unfold throw, ret, putState, PropertyList.updateProperty,
    PropertyList.addProperty, UserList.updateUser, UserList.addUser;
  intros H; first [discriminate H | injection H as <- <-];
  cbn [app]; repeat (apply Forall_cons; split); try apply Forall_nil;
  try exact I; eexists; reflexivity.

Lemma user_call_puts ctx c w r tr :
  user_call c = true ->
  run (dispatch ctx c) w = (Returned r, tr) ->
  puts_within UserList.name tr.
Proof.
  destruct c; try discriminate; intros _ [a Hrun]%bind_ret_returned;
    revert Hrun;
    unfold UserContract.requestNewUser, UserContract.rechargeAccount,
      RegistrarContract.approveNewUserRequest;
    returned_puts_within.
Qed.

Lemma property_call_puts ctx c w r tr :
  property_call c = true ->
  run (dispatch ctx c) w = (Returned r, tr) ->
  puts_within PropertyList.name tr.
Proof.
  destruct c; try discriminate; intros _ [a Hrun]%bind_ret_returned;
    revert Hrun;
    unfold UserContract.propertyRegistrationRequest,
      UserContract.updateProperty,
      RegistrarContract.approvePropertyRegistrationRequest;
    returned_puts_within.
Qed.

(** X22. The two kinds of records do not mix: requestNewUser,
    rechargeAccount and approveNewUserRequest leave every property as the
    list reads it; propertyRegistrationRequest,
    approvePropertyRegistrationRequest and updateProperty leave every user
    as the list reads it.  This holds on every ledger and for every
    outcome. *)
Theorem calls_keep_to_their_namespace ctx c w :
  (user_call c = true ->
   forall propertyId,
     stored_property (invoke (dispatch ctx c) w).2 propertyId
     = stored_property w propertyId) /\
  (property_call c = true ->
   forall key,
     stored_user (invoke (dispatch ctx c) w).2 key = stored_user w key).
Proof.
  destruct (run (dispatch ctx c) w) as [[r|e] tr] eqn:Hrun.
  2: { rewrite (invoke_thrown _ _ _ _ Hrun). by split. }
  rewrite (invoke_returned _ _ _ _ Hrun). simpl. split.
  - intros Hc propertyId. apply commit_puts_within_users.
    by eapply user_call_puts.
  - intros Hc key. apply commit_puts_within_properties.
    by eapply property_call_puts.
Qed.

Lemma json_of_json_data o : json_data o = true -> json_of o = o.
Proof.
  induction o as [|[k v] r IH]; [done|]. unfold json_data. simpl.
  intros [Hv Hr]%andb_true_iff. rewrite json_of_cons.
  fold (json_data r) in Hr. rewrite IH by done. by destruct v.
Qed.

Lemma json_data_set o k v :
  json_data o = true -> json_data [(k, v)] = true ->
  json_data (set o k v) = true.
Proof.
  intros Ho Hv. induction o as [|[k0 v0] r IH]; simpl; [done|].
  unfold json_data in Ho. simpl in Ho.
  apply andb_true_iff in Ho as [Hv0 Hr]. fold (json_data r) in Hr.
  unfold json_data in Hv. simpl in Hv. rewrite andb_true_r in Hv.
  destruct (String.eqb k0 k); unfold json_data; simpl.
  - rewrite Hv. exact Hr.
  - rewrite Hv0. by apply IH.
Qed.

Lemma json_data_assign t src :
  json_data t = true -> json_data src = true ->
  json_data (assign t src) = true.
Proof.
  unfold assign. revert t.
  induction src as [|[k v] r IH]; intros t Ht Hsrc; simpl; [done|].
  unfold json_data in Hsrc. simpl in Hsrc.
  apply andb_true_iff in Hsrc as [Hv Hr]. fold (json_data r) in Hr.
  apply IH; [|done]. apply json_data_set; [done|].
  unfold json_data. simpl. by rewrite Hv.
Qed.

(** An instance made of JSON data is read back from its own text as it
    is. *)
Lemma instance_reread (new : jsobj -> jsobj) o :
  (forall x, exists c, new x = assign [("key", JStr c)] x) ->
  json_data o = true ->
  new (assign [] (json_of (new o))) = new o.
Proof.
  intros Hnew Hdata. destruct (Hnew o) as [c Hc].
  assert (json_data (new o) = true) as Hdata'
    by (rewrite Hc; by apply json_data_assign).
  assert (NoDup (new o).*1) as Hnd
    by (rewrite Hc; apply NoDup_assign, NoDup_singleton).
  rewrite json_of_json_data, parse_assign_id by done.
  destruct (assign_head "key" (JStr c) [] o) as (v & rest & Hhead).
  destruct (Hnew (new o)) as [c' ->].
  rewrite Hc, Hhead in Hnd |- *. by apply User_new_keyed.
Qed.

(** X23. Insert and lookup on the property list: after addProperty, or
    updateProperty, of an instance made by createInstance from JSON data,
    with a key that is not empty, getProperty with the instance's key
    returns that instance. *)
Theorem addProperty_then_getProperty propertyObject (key : string) w :
  json_data propertyObject = true ->
  let property := Property.createInstance propertyObject in
  Property.getKey property = JStr key ->
  key <> "" ->
  let propertyCompositeKey :=
    createCompositeKey PropertyList.name [JStr key] in
  run (PropertyList.addProperty property) w
  = (Returned tt, [Put propertyCompositeKey (Property.toBuffer property)]) /\
  run (PropertyList.updateProperty property) w
  = run (PropertyList.addProperty property) w /\
  run (PropertyList.getProperty key)
      (invoke (PropertyList.addProperty property) w).2
  = (Returned property, [Get propertyCompositeKey]).
Proof.
  intros Hdata property Hkey _ propertyCompositeKey.
  assert (run (PropertyList.addProperty property) w
          = (Returned tt,
             [Put propertyCompositeKey (Property.toBuffer property)]))
    as Hrun.
  { unfold run, PropertyList.addProperty, putState. by rewrite Hkey. }
  split; [exact Hrun|]. split; [reflexivity|].
  rewrite (invoke_returned _ _ _ _ Hrun). simpl.
  unfold run, PropertyList.getProperty, bind, getState, lift.
  unfold propertyCompositeKey. rewrite lookup_insert_eq. simpl.
  unfold ret. do 2 f_equal.
  apply (instance_reread Property.new); [by eexists|done].
Qed.

Lemma append_assoc (a b c : string) : (a ++ b) ++ c = a ++ b ++ c.
Proof.
  induction a as [|x a IH]; [done|].
  change (String x ((a ++ b) ++ c) = String x (a ++ b ++ c)). by rewrite IH.
Qed.

(** X24. The key name:aadhar does not tell the name from the aadhar when
    one of them holds a colon: (a:b, c) and (a, b:c) have one key, so that
    after requestNewUser for the first, on a free key, requestNewUser for
    the second is refused as a request that already exists. *)
Theorem makeKey_collision ctx a b c email phone email' phone' w :
  getMSPID ctx = "usersMSP" ->
  stored_user w (JStr (User.makeKey [JStr (a ++ ":" ++ b); JStr c])) = None ->
  User.makeKey [JStr (a ++ ":" ++ b); JStr c]
  = User.makeKey [JStr a; JStr (b ++ ":" ++ c)] /\
  exists r w',
    invoke (UserContract.requestNewUser ctx (a ++ ":" ++ b) email phone c) w
    = (Returned r, w') /\
    run (UserContract.requestNewUser ctx a email' phone' (b ++ ":" ++ c)) w'
    = (Thrown (Error ("User Registration Request for name " ++ a
                      ++ " and aadhar " ++ (b ++ ":" ++ c)
                      ++ "is already exists")),
       [Get (createCompositeKey UserList.name
               [JStr (User.makeKey [JStr a; JStr (b ++ ":" ++ c)])])]).
Proof.
  intros Hmsp Hfree.
  assert (User.makeKey [JStr (a ++ ":" ++ b); JStr c]
          = User.makeKey [JStr a; JStr (b ++ ":" ++ c)]) as Hkeys.
  { unfold User.makeKey. simpl. by rewrite !append_assoc. }
  split; [exact Hkeys|].
  pose proof (requestNewUser_run_free ctx (a ++ ":" ++ b) email phone c w
                Hmsp Hfree) as Hrun. cbv zeta in Hrun.
  eexists _, _. split; [by apply invoke_returned|].
  unfold commit. cbn [fold_left apply_event].
  unfold run, UserContract.requestNewUser. rewrite Hmsp.
  change (negb ("usersMSP" =? "usersMSP")%string) with false. cbv iota.
  rewrite bind_getState.
  change UserContract.user_prefix with UserList.name.
  rewrite <- Hkeys, lookup_insert_eq. reflexivity.
Qed.

(** X25. On every ledger the transactions produce from the empty one,
    each record the lists read is under the key its own key field names:
    a user read at name:aadhar has that key, a property read at an id has
    that id as key. *)
Theorem reachable_records_keyed w :
  reachable w ->
  (forall key user,
     stored_user w (JStr key) = Some user -> User.getKey user = JStr key) /\
  (forall key property,
     stored_property w key = Some property ->
     Property.getKey property = JStr key).
Proof. intros Hr. by apply reachable_keyed. Qed.

End views_and_lists.

Lemma addProperty_then_getProperty_witness :
  let property :=
    Property.createInstance
      [("propertyId", JStr "P5"); ("owner", JStr "bob:2"); ("price", JNum 9)]
  in
  run (PropertyList.getProperty "P5")
      (invoke (PropertyList.addProperty property) Scenario.w_users).2
  = (Returned property,
     [Get (createCompositeKey PropertyList.name [JStr "P5"])]).
Proof.
  apply (addProperty_then_getProperty
           [("propertyId", JStr "P5"); ("owner", JStr "bob:2");
            ("price", JNum 9)] "P5" Scenario.w_users);
    [reflexivity | reflexivity | discriminate].
Defined.

Lemma makeKey_collision_witness :
  User.makeKey [JStr "ann:lee"; JStr "7"]
  = User.makeKey [JStr "ann"; JStr "lee:7"].
Proof.
  apply (makeKey_collision Scenario.asUser "ann" "lee" "7"
           "e" "p" "e" "p" Scenario.w_users);
    [reflexivity | vm_compute; reflexivity].
Defined.

Lemma reachable_records_keyed_witness :
  User.getKey Scenario.dave = JStr "dave:4".
Proof.
  destruct (reachable_records_keyed Scenario.w_newcomer w_newcomer_reachable)
    as (Husers & _).
  apply Husers. vm_compute; reflexivity.
Defined.

Lemma calls_keep_to_their_namespace_witness :
  stored_property
    (invoke (dispatch Scenario.asUser (RechargeAccount "bob" "2" "upg100"))
            Scenario.w_onsale).2 "P1"
  = stored_property Scenario.w_onsale "P1".
Proof.
  destruct (calls_keep_to_their_namespace Scenario.asUser
              (RechargeAccount "bob" "2" "upg100") Scenario.w_onsale)
    as (Husers & _).
  apply Husers. reflexivity.
Defined.

Lemma views_read_only_witness :
  (invoke (dispatch_view Scenario.asRegistrar (UserViewProperty "P1"))
          Scenario.w_onsale).2 = Scenario.w_onsale.
Proof.
  apply (views_read_only Scenario.asRegistrar Scenario.asUser
           (UserViewProperty "P1") Scenario.w_onsale); discriminate.
Defined.

Lemma views_results_witness :
  run (UserContract.viewProperty Scenario.asUser "P9") Scenario.w_onsale
  = (Thrown (Error "There is no registered property with propertyId P9 exists"),
     [Get (createCompositeKey PropertyList.name [JStr "P9"])]) /\
  run (RegistrarContract.viewProperty Scenario.asRegistrar "P9")
      Scenario.w_onsale
  = (Returned None, [Get (createCompositeKey PropertyList.name [JStr "P9"])]).
Proof.
  destruct (views_results Scenario.asUser "alice" "1" "P9" Scenario.w_onsale)
    as (_ & _ & _ & Hmissing & _ & _); [discriminate|].
  destruct (views_results Scenario.asRegistrar "alice" "1" "P9"
              Scenario.w_onsale) as (_ & _ & _ & _ & _ & Hregistrar);
    [discriminate|].
  split; [apply Hmissing; vm_compute; reflexivity|].
  rewrite Hregistrar. vm_compute. reflexivity.
Defined.

Section property_lifecycle.
Implicit Types (w : gmap string buffer) (user : jsobj).

(** X26. Registration and approval of a property compose: for a stored
    user and a free property id, not empty, propertyRegistrationRequest and
    then approvePropertyRegistrationRequest by a registrar leave the
    property stored under its id with status registered, the caller's key
    as owner and the price as JSON keeps it; purchaseProperty on it, before
    any updateProperty, is refused as not on sale. *)
Theorem register_then_approve_property ctxU ctxR ctx' name aadhar propertyId
    price w user :
  getMSPID ctxU = "usersMSP" ->
  getMSPID ctxR = "registrarMSP" ->
  propertyId <> "" ->
  stored_property w propertyId = None ->
  stored_user w (JStr (User.makeKey [JStr name; JStr aadhar])) = Some user ->
  exists r w1 approved w2 property,
    invoke (UserContract.propertyRegistrationRequest
              ctxU name aadhar propertyId price) w = (Returned r, w1) /\
    invoke (RegistrarContract.approvePropertyRegistrationRequest
              ctxR propertyId) w1 = (Returned approved, w2) /\
    stored_property w2 propertyId = Some property /\
    Property.getKey property = JStr propertyId /\
    get property "status" = JStr "registered" /\
    get property "owner" = JStr (User.makeKey [JStr name; JStr aadhar]) /\
    get property "price" = json_value price /\
    exists tr,
      run (UserContract.purchaseProperty ctx' name aadhar propertyId) w2
      = (Thrown (Error ("The property with propertyId " ++ propertyId
                        ++ " is not onSale")), tr) /\
      no_put tr = true.
Proof.
  intros HmspU HmspR _ Hnone Hu.
  pose proof (propertyRegistrationRequest_any_user ctxU name aadhar
                propertyId price w user HmspU Hnone Hu) as Hrun1.
  cbv zeta in Hrun1.
  set (w1 := commit
    [ Get (createCompositeKey PropertyList.name [JStr propertyId]);
      Get (createCompositeKey UserList.name
             [JStr (User.makeKey [JStr name; JStr aadhar])]);
      Put (createCompositeKey PropertyList.name [JStr propertyId])
          (stringify
             [ ("propertyId", JStr propertyId);
               ("owner", JStr (User.makeKey [JStr name; JStr aadhar]));
               ("price", price) ]) ] w).
  assert (exists pending,
    stored_property w1 propertyId = Some pending /\
    Property.getKey pending = JStr propertyId /\
    get pending "owner" = JStr (User.makeKey [JStr name; JStr aadhar]) /\
    get pending "price" = json_value price)
    as (pending & Hp1 & Hkey1 & Howner1 & Hprice1).
  { eexists. split.
    - unfold w1, commit. cbn [fold_left apply_event].
      unfold stored_property. by rewrite lookup_insert_eq.
    - by destruct price. }
  destruct (approveProperty_run ctxR propertyId w1 pending HmspR Hp1 Hkey1)
    as (approved & Hrun2 & Hnd & Hst & Hrest).
  set (w2 := commit
    [ Get (createCompositeKey PropertyList.name [JStr propertyId]);
      Put (createCompositeKey PropertyList.name [JStr propertyId])
          (Property.toBuffer approved) ] w1).
  assert (stored_property w2 propertyId
          = Some (Property.new (assign [] (json_of approved)))) as Hp2
    by apply stored_property_insert.
  assert (stored_user w2 (JStr (User.makeKey [JStr name; JStr aadhar]))
          = Some user) as Hu2.
  { unfold w2, w1, commit. cbn [fold_left apply_event].
    rewrite !stored_user_insert_other; [done| |];
      intros Heq; by eapply user_property_keys_differ. }
  assert (get (Property.new (assign [] (json_of approved))) "status"
          = JStr "registered") as Hst2
    by (by rewrite get_reread_property, Hst).
  eexists _, w1, approved, w2, _.
  split; [by apply invoke_returned|]. split; [by apply invoke_returned|].
  split; [exact Hp2|]. split_and!.
  - apply reread_key_property; [done|].
    fold (Property.getKey approved). unfold Property.getKey.
    rewrite Hrest by done. exact Hkey1.
  - exact Hst2.
  - rewrite get_reread_property, Hrest, Howner1; done.
  - rewrite get_reread_property, Hrest, Hprice1 by done.
    by destruct price.
  - rewrite purchaseProperty_run, Hu2, Hp2. cbv zeta. rewrite Hst2.
    eexists. split; reflexivity.
Qed.

End property_lifecycle.

Lemma register_then_approve_property_witness :
  exists r w1 approved w2 property,
    invoke (UserContract.propertyRegistrationRequest Scenario.asUser
              "bob" "2" "P2" (JNum 70)) Scenario.w_onsale = (Returned r, w1) /\
    invoke (RegistrarContract.approvePropertyRegistrationRequest
              Scenario.asRegistrar "P2") w1 = (Returned approved, w2) /\
    stored_property w2 "P2" = Some property /\
    get property "status" = JStr "registered".
Proof.
  destruct (register_then_approve_property Scenario.asUser
              Scenario.asRegistrar Scenario.asUser "bob" "2" "P2" (JNum 70)
              Scenario.w_onsale Scenario.bob)
    as (r & w1 & approved & w2 & property & H1 & H2 & H3 & _ & H4 & _);
    [reflexivity | reflexivity | discriminate | vm_compute; reflexivity ..|].
  exists r, w1, approved, w2, property. auto.
Defined.
